(** * Direct-message chats: services and request handlers

    A shallow embedding of the chat subsystem of the server:
    - [server/services/chat.service.ts]: [saveChat], [createMessage],
      [addMessageToChat], [getChat], [getChatsByParticipants],
      [addParticipantToChat];
    - the chat controller: the three request validators and the five routes,
      with the realtime server they close over, in the revision that checks
      the chat identifier of a request and the results of hydration.

    The document database is modelled as three collections kept as lists in
    insertion order, together with a fault schedule (which store calls
    reject) and a log of the store calls made.  Asynchronous code is written
    in a state-and-exception monad in which a rejection keeps the state:
    writes made before a failure are not undone. *)

From Stdlib Require Import String Ascii List Bool ZArith Arith Lia.
Import ListNotations.
Open Scope string_scope.
Open Scope list_scope.

Set Implicit Arguments.
Set Warnings "-register-all".

(** ** Values of a JSON request body *)

Inductive JsValue : Type :=
| JUndefined
| JNull
| JBool (b : bool)
| JNum (n : Z)
| JStr (s : string)
| JArr (xs : list JsValue)
| JObj (fields : list (string * JsValue)).

(** JavaScript truthiness, as used by [!messages] and [m.msgDateTime ? .. : ..]. *)
Definition truthy (v : JsValue) : bool :=
  match v with
  | JUndefined | JNull => false
  | JBool b => b
  | JNum n => negb (Z.eqb n 0)
  | JStr s => negb (String.eqb s "")
  | JArr _ | JObj _ => true
  end.

(** [typeof v === 'string'] *)
Definition is_string (v : JsValue) : bool :=
  match v with JStr _ => true | _ => false end.

(** The text of a value already known to be a string. *)
Definition str (v : JsValue) : string :=
  match v with JStr s => s | _ => "" end.

Fixpoint assoc (k : string) (fs : list (string * JsValue)) : JsValue :=
  match fs with
  | [] => JUndefined
  | (k', v) :: fs' => if String.eqb k k' then v else assoc k fs'
  end.

(** ** Outcomes of asynchronous code *)

(** An awaited promise either resolves with a value or rejects; synchronous
    code either returns or throws.  The rejection reason is never inspected
    by the code ([catch (err)] ignores [err]), so it is not recorded. *)
Inductive Outcome (A : Type) : Type :=
| Returned (a : A)
| Thrown.
Arguments Thrown {A}.

(** Property access [v.k]: a [TypeError] on [undefined] and [null], the
    own property of an object, [undefined] on anything else the request
    parser can produce. *)
Definition js_get (v : JsValue) (k : string) : Outcome JsValue :=
  match v with
  | JUndefined | JNull => Thrown
  | JObj fs => Returned (assoc k fs)
  | _ => Returned JUndefined
  end.

(** [xs.every(f)] for a callback that may throw: stops at the first [false]
    and at the first throw. *)
Fixpoint every (A : Type) (f : A -> Outcome bool) (xs : list A) : Outcome bool :=
  match xs with
  | [] => Returned true
  | x :: xs' =>
      match f x with
      | Returned true => every f xs'
      | Returned false => Returned false
      | Thrown => Thrown
      end
  end.

(** [xs.some(f)], likewise. *)
Fixpoint some (A : Type) (f : A -> Outcome bool) (xs : list A) : Outcome bool :=
  match xs with
  | [] => Returned false
  | x :: xs' =>
      match f x with
      | Returned true => Returned true
      | Returned false => some f xs'
      | Thrown => Thrown
      end
  end.

(** [Async S A]: a computation over a state [S] that resolves or rejects.
    The state after a rejection is the state reached when it happened. *)
Definition Async (S A : Type) : Type := S -> Outcome A * S.

Definition ret {S A : Type} (a : A) : Async S A := fun s => (Returned a, s).

Definition bind {S A B : Type} (m : Async S A) (k : A -> Async S B) : Async S B :=
  fun s =>
    match m s with
    | (Returned a, s') => k a s'
    | (Thrown, s') => (Thrown, s')
    end.

(** [try { m } catch (err) { h }] *)
Definition try_catch {S A : Type} (m : Async S A) (h : Async S A) : Async S A :=
  fun s =>
    match m s with
    | (Returned a, s') => (Returned a, s')
    | (Thrown, s') => h s'
    end.

(** A synchronous result used inside asynchronous code. *)
Definition of_outcome {S A : Type} (o : Outcome A) : Async S A := fun s => (o, s).

Declare Scope async_scope.
Delimit Scope async_scope with async.
Notation "x <- m ;; k" := (bind m (fun x => k))
  (at level 61, m at next level, right associativity) : async_scope.
Notation "m ;;; k" := (bind m (fun _ => k))
  (at level 61, right associativity) : async_scope.
Open Scope async_scope.

(** The promises [xs.map(f)] of [Promise.all(xs.map(f))]: every operation is
    started, in list order, whether or not an earlier one rejects. *)
Fixpoint settle_all (S A : Type) (ms : list (Async S A)) : S -> list (Outcome A) * S :=
  fun s =>
    match ms with
    | [] => ([], s)
    | m :: ms' =>
        let (o, s1) := m s in
        let (os, s2) := settle_all ms' s1 in
        (o :: os, s2)
    end.

(** All values when every promise resolved, a rejection otherwise. *)
Fixpoint collect (A : Type) (os : list (Outcome A)) : Outcome (list A) :=
  match os with
  | [] => Returned []
  | Returned a :: os' =>
      match collect os' with
      | Returned l => Returned (a :: l)
      | Thrown => Thrown
      end
  | Thrown :: _ => Thrown
  end.

(** [await Promise.all(ms)] *)
Definition promise_all {S A : Type} (ms : list (Async S A)) : Async S (list A) :=
  fun s => let (os, s') := settle_all ms s in (collect os, s').

(** ** Documents *)

Definition ObjectId := string.
Definition Date := Z.

(** Modelled from the spec: the schemas and types of users, messages and
    chats ([models/*.model], [types/*]) are not among the sources.  The
    records below hold the fields the services and their tests read and
    write; identifiers are kept in their string form. *)
Record User : Type := mkUser {
  user_id : ObjectId;
  username : string
}.

Inductive MessageType : Type := Global | Direct.

(** Modelled from the spec: [types/message.Message].  [msgFrom] is the text
    [createMessage] looks the sender up by, a username; a seed message of a
    chat may come without [msgDateTime]. *)
Record Message : Type := mkMessage {
  msg : string;
  msgFrom : string;
  msgDateTime : option Date;
  msgType : MessageType
}.

(** A saved message: the data plus the identifier the store assigned. *)
Record MessageDoc : Type := mkMessageDoc {
  message_id : ObjectId;
  message_data : Message
}.

(** Modelled from the spec: a chat document, with its participant and
    message references in order. *)
Record Chat : Type := mkChat {
  chat_id : ObjectId;
  participants : list ObjectId;
  messages : list ObjectId
}.

(** [CreateChatPayload]: usernames and optional seed messages. *)
Record CreateChatPayload : Type := mkPayload {
  payload_participants : list string;
  payload_messages : option (list Message)
}.

(** What a service resolves with: a document, or [{ error: e }]. *)
Inductive Response (A : Type) : Type :=
| Doc (a : A)
| ErrorObj (e : string).
Arguments ErrorObj {A}.

Definition ChatResponse := Response Chat.
Definition MessageResponse := Response MessageDoc.

(** ** The document store *)

Inductive StoreCall : Type :=
| UserFind (usernames : list string)
| UserFindOne (name : string)
| MessageSave (m : Message)
| ChatCreate (ps ms : list ObjectId)
| ChatFindById (id : ObjectId)
| ChatFind (ids : list ObjectId)
| ChatFindByIdAndUpdate (id : ObjectId)
| Populate (id : ObjectId).

Record Db : Type := mkDb {
  db_users : list User;
  db_messages : list MessageDoc;
  db_chats : list Chat;
  next_id : nat;
  faults : list bool;
  calls : list StoreCall
}.

Definition hex_digit (n : nat) : ascii :=
  match n with
  | 0 => "0" | 1 => "1" | 2 => "2" | 3 => "3" | 4 => "4" | 5 => "5" | 6 => "6"
  | 7 => "7" | 8 => "8" | 9 => "9" | 10 => "a" | 11 => "b" | 12 => "c"
  | 13 => "d" | 14 => "e" | _ => "f"
  end%char.

Fixpoint hex_of (width n : nat) (acc : string) : string :=
  match width with
  | 0 => acc
  | S w => hex_of w (n / 16) (String (hex_digit (n mod 16)) acc)
  end.

(** The text of the [n]-th identifier the store hands out: 24 hex digits. *)
Definition oid (n : nat) : ObjectId := hex_of 24 n "".

Definition mem (x : string) (l : list string) : bool := existsb (String.eqb x) l.

(** Every call on a model goes through here: it is logged, it consumes one
    entry of the fault schedule, and it rejects when that entry is [true].
    An exhausted schedule means no further faults. *)
Definition store_call (c : StoreCall) : Async Db unit :=
  fun d =>
    let d' := mkDb (db_users d) (db_messages d) (db_chats d) (next_id d)
                   (tl (faults d)) (calls d ++ [c]) in
    match faults d with
    | true :: _ => (Thrown, d')
    | _ => (Returned tt, d')
    end.

(** [UserModel.find({ username: { $in: names } })] *)
Definition UserModel_find (names : list string) : Async Db (list User) :=
  store_call (UserFind names) ;;;
  fun d => (Returned (filter (fun u => mem (username u) names) (db_users d)), d).

(** [UserModel.findOne({ username: name })]: the first match, or [null]. *)
Definition UserModel_findOne (name : string) : Async Db (option User) :=
  store_call (UserFindOne name) ;;;
  fun d => (Returned (find (fun u => String.eqb (username u) name) (db_users d)), d).

(** [new MessageModel(m).save()] *)
Definition MessageModel_save (m : Message) : Async Db MessageDoc :=
  store_call (MessageSave m) ;;;
  fun d =>
    let doc := mkMessageDoc (oid (next_id d)) m in
    (Returned doc,
     mkDb (db_users d) (db_messages d ++ [doc]) (db_chats d) (S (next_id d))
          (faults d) (calls d)).

(** [ChatModel.create({ participants: ps, messages: ms })] *)
Definition ChatModel_create (ps ms : list ObjectId) : Async Db Chat :=
  store_call (ChatCreate ps ms) ;;;
  fun d =>
    let c := mkChat (oid (next_id d)) ps ms in
    (Returned c,
     mkDb (db_users d) (db_messages d) (db_chats d ++ [c]) (S (next_id d))
          (faults d) (calls d)).

Definition has_id (id : ObjectId) (c : Chat) : bool := String.eqb (chat_id c) id.

(** [ChatModel.findById(id)], for an identifier the store can cast to an
    ObjectId.  (The store refuses any other text before it runs a query;
    statements about handlers that do not test the identifier themselves
    carry the ObjectId test as a hypothesis.) *)
Definition ChatModel_findById (id : ObjectId) : Async Db (option Chat) :=
  store_call (ChatFindById id) ;;;
  fun d => (Returned (find (has_id id) (db_chats d)), d).

(** The [$all] operator: the array field holds every listed value; an empty
    list of values matches no document. *)
Definition all_of (ids : list ObjectId) (c : Chat) : bool :=
  match ids with
  | [] => false
  | _ => forallb (fun i => mem i (participants c)) ids
  end.

(** [ChatModel.find({ participants: { $all: ids } })] *)
Definition ChatModel_find_all (ids : list ObjectId) : Async Db (list Chat) :=
  store_call (ChatFind ids) ;;;
  fun d => (Returned (filter (all_of ids) (db_chats d)), d).

(** Replace the first chat with identifier [id] by its image under [f]. *)
Fixpoint update_first (id : ObjectId) (f : Chat -> Chat) (cs : list Chat) : list Chat :=
  match cs with
  | [] => []
  | c :: cs' => if has_id id c then f c :: cs' else c :: update_first id f cs'
  end.

(** [ChatModel.findByIdAndUpdate(id, update, { new: true })]: [null] when no
    chat has that identifier, the updated chat otherwise. *)
Definition ChatModel_findByIdAndUpdate (id : ObjectId) (f : Chat -> Chat)
  : Async Db (option Chat) :=
  store_call (ChatFindByIdAndUpdate id) ;;;
  fun d =>
    match find (has_id id) (db_chats d) with
    | None => (Returned None, d)
    | Some c =>
        (Returned (Some (f c)),
         mkDb (db_users d) (db_messages d) (update_first id f (db_chats d))
              (next_id d) (faults d) (calls d))
    end.

(** [{ $push: { messages: mid } }] *)
Definition push_message (mid : ObjectId) (c : Chat) : Chat :=
  mkChat (chat_id c) (participants c) (messages c ++ [mid]).

(** [{ $addToSet: { participants: uid } }] *)
Definition addToSet (uid : ObjectId) (c : Chat) : Chat :=
  mkChat (chat_id c)
         (if mem uid (participants c) then participants c else participants c ++ [uid])
         (messages c).

(** ** Services ([server/services/chat.service.ts]) *)

Definition as_direct (m : Message) : Message :=
  mkMessage (msg m) (msgFrom m) (msgDateTime m) Direct.

(** Creates and saves a new chat document, resolving usernames to ObjectIds. *)
Definition saveChat (chatPayload : CreateChatPayload) : Async Db ChatResponse :=
  try_catch
    (messageIds <-
       match payload_messages chatPayload with
       | Some ms =>
           savedMessages <- promise_all (map (fun m => MessageModel_save (as_direct m)) ms) ;;
           ret (map message_id savedMessages)
       | None => ret []
       end ;;
     users <- UserModel_find (payload_participants chatPayload) ;;
     if negb (Nat.eqb (List.length users) (List.length (payload_participants chatPayload)))
     then ret (ErrorObj "Some users not found")
     else
       newChat <- ChatModel_create (map user_id users) messageIds ;;
       ret (Doc newChat))
    (ret (ErrorObj "Failed to save chat")).

(** Creates and saves a new message document. *)
Definition createMessage (messageData : Message) : Async Db MessageResponse :=
  try_catch
    (user <- UserModel_findOne (msgFrom messageData) ;;
     match user with
     | None => ret (ErrorObj "User not found")
     | Some _ =>
         savedMessage <- MessageModel_save messageData ;;
         ret (Doc savedMessage)
     end)
    (ret (ErrorObj "Failed to create message")).

(** Adds a message ID to an existing chat. *)
Definition addMessageToChat (chatId messageId : ObjectId) : Async Db ChatResponse :=
  try_catch
    (updatedChat <- ChatModel_findByIdAndUpdate chatId (push_message messageId) ;;
     match updatedChat with
     | None => ret (ErrorObj "Chat not found")
     | Some c => ret (Doc c)
     end)
    (ret (ErrorObj "Failed to add message to chat")).

(** Retrieves a chat document by its ID. *)
Definition getChat (chatId : ObjectId) : Async Db ChatResponse :=
  try_catch
    (chat <- ChatModel_findById chatId ;;
     match chat with
     | None => ret (ErrorObj "Chat not found")
     | Some c => ret (Doc c)
     end)
    (ret (ErrorObj "Failed to get chat")).

(** Retrieves chats that include all the provided participant usernames. *)
Definition getChatsByParticipants (usernames : list string) : Async Db (list Chat) :=
  try_catch
    (users <- UserModel_find usernames ;;
     let userIds := map user_id users in
     chats <- ChatModel_find_all userIds ;;
     ret chats)
    (ret []).

(** Adds a participant (by ObjectId string) to an existing chat. *)
Definition addParticipantToChat (chatId userId : ObjectId) : Async Db ChatResponse :=
  try_catch
    (updatedChat <- ChatModel_findByIdAndUpdate chatId (addToSet userId) ;;
     match updatedChat with
     | None => ret (ErrorObj "Chat not found")
     | Some c => ret (Doc c)
     end)
    (ret (ErrorObj "Failed to add participant to chat")).

(** ** Hydrated documents and the realtime server *)

Record PopulatedMessage : Type := mkPopulatedMessage {
  pm_id : ObjectId;
  pm_msg : string;
  pm_from : option User;
  pm_date : option Date
}.

Record PopulatedChat : Type := mkPopulatedChat {
  pc_id : ObjectId;
  pc_participants : list User;
  pc_messages : list PopulatedMessage
}.

(** What a hydration call may resolve with: the hydrated chat, an
    error-shaped object, or [null]. *)
Inductive Populated : Type :=
| PopChat (c : PopulatedChat)
| PopError (e : string)
| PopNull.

Inductive UpdateType : Type := Created | NewMessage.

Record ChatUpdatePayload : Type := mkUpdate {
  update_chat : Populated;
  update_type : UpdateType
}.

(** A client connection and the rooms it joined. *)
Record Connection : Type := mkConnection {
  conn_id : nat;
  rooms : list string
}.

(** An event as it left the server, with the connections it was sent to. *)
Record Emitted : Type := mkEmitted {
  event : string;
  payload : ChatUpdatePayload;
  recipients : list nat
}.

Record Socket : Type := mkSocket {
  connections : list Connection;
  emitted : list Emitted
}.

Record World : Type := mkWorld {
  db : Db;
  socket : Socket;
  clock : Date
}.

(** Run a store computation inside a request handler. *)
Definition on_db {A : Type} (m : Async Db A) : Async World A :=
  fun w => let (o, d) := m (db w) in (o, mkWorld d (socket w) (clock w)).

(** [socket.emit(ev, p)] on the server object: every connected client is a
    recipient, whatever rooms it joined. *)
Definition socket_emit (ev : string) (p : ChatUpdatePayload) : Async World unit :=
  fun w =>
    let s := socket w in
    (Returned tt,
     mkWorld (db w)
             (mkSocket (connections s)
                       (emitted s ++ [mkEmitted ev p (map conn_id (connections s))]))
             (clock w)).

(** [new Date()] *)
Definition now : Async World Date := fun w => (Returned (clock w), w).

Definition map_conn (id : nat) (f : Connection -> Connection) (s : Socket) : Socket :=
  mkSocket (map (fun c => if Nat.eqb (conn_id c) id then f c else c) (connections s))
           (emitted s).

(** [conn.on('joinChat', chatId => { if (typeof chatId === 'string') conn.join(chatId) })] *)
Definition joinChat (id : nat) (chatId : JsValue) (s : Socket) : Socket :=
  match chatId with
  | JStr r =>
      map_conn id (fun c => mkConnection (conn_id c)
                              (if mem r (rooms c) then rooms c else r :: rooms c)) s
  | _ => s
  end.


(** ** The chat controller *)

(** Requests, as the handlers read them: route parameters are strings,
    body fields are whatever the JSON body held ([JUndefined] when absent). *)
Record CreateChatRequest : Type := mkCreateChatRequest {
  body_participants : JsValue;
  body_messages : JsValue
}.

Record AddMessageRequestToChat : Type := mkAddMessageRequest {
  am_chatId : string;
  body_msg : JsValue;
  body_msgFrom : JsValue;
  body_msgDateTime : JsValue
}.

Record AddParticipantRequest : Type := mkAddParticipantRequest {
  ap_chatId : string;
  body_participant : JsValue
}.

Record ChatIdRequest : Type := mkChatIdRequest { ci_chatId : string }.

Record GetChatByParticipantsRequest : Type := mkByUserRequest { param_username : string }.

(** What [res.status(n).json(..)] or [res.status(n).send(..)] sent. *)
Inductive Body : Type :=
| JsonError (e : string)
| Json (p : Populated)
| JsonList (ps : list Populated)
| Text (s : string).

Record HttpResponse : Type := mkHttp {
  status : nat;
  body : Body
}.

(** White space removed by [String.prototype.trim], within ASCII: tab, line
    feed, vertical tab, form feed, carriage return and space.  ([trim] also
    removes the Unicode spaces beyond ASCII; statements that depend on which
    texts are blank are made for ASCII texts.) *)
Definition is_space (a : ascii) : bool :=
  match nat_of_ascii a with
  | 9 | 10 | 11 | 12 | 13 | 32 => true
  | _ => false
  end.

Fixpoint trimStart (s : string) : string :=
  match s with
  | EmptyString => EmptyString
  | String a s' => if is_space a then trimStart s' else s
  end.

Fixpoint trimEnd (s : string) : string :=
  match s with
  | EmptyString => EmptyString
  | String a s' =>
      match trimEnd s' with
      | EmptyString => if is_space a then EmptyString else String a EmptyString
      | t => String a t
      end
  end.

Definition trim (s : string) : string := trimEnd (trimStart s).

(** The collaborators the controller imports but this repository does not
    define: the ObjectId test and the date parser of the platform, and the
    two hydration calls.  Hydration reads the store; it has no access to the
    realtime server.  [new_Date v] is the time value of [new Date(v)], [None]
    for an invalid date; it describes the conversion of absent and primitive
    values, which cannot throw (that of an object or array can, and
    statements about every request carry [json_primitive] as a hypothesis
    on the date field). *)
Record Env : Type := mkEnv {
  isValidObjectId : string -> bool;
  Date_parse : string -> option Date;
  new_Date : JsValue -> option Date;
  populateDocument : ObjectId -> Async Db Populated;
  findById_populate : ObjectId -> Async Db (option PopulatedChat)
}.

Section Controller.

Variable E : Env.

(** One element of [messages.every(m => ...)]. *)
Definition isSeedMessageValid (m : JsValue) : Outcome bool :=
  match js_get m "msg", js_get m "msgFrom", js_get m "msgDateTime" with
  | Returned vmsg, Returned vfrom, Returned vdate =>
      Returned
        (is_string vmsg && is_string vfrom &&
         (negb (truthy vdate) ||
          match vdate with
          | JStr s => match Date_parse E s with Some _ => true | None => false end
          | _ => false
          end))
  | _, _, _ => Thrown
  end.

Definition isCreateChatRequestValid (req : CreateChatRequest) : Outcome bool :=
  match body_participants req with
  | JArr ps =>
      if Nat.ltb (List.length ps) 2 then Returned false
      else
        let validParticipants := forallb is_string ps in
        let validMessages :=
          if negb (truthy (body_messages req)) then Returned true
          else
            match body_messages req with
            | JArr ms => every isSeedMessageValid ms
            | _ => Returned false
            end in
        match validMessages with
        | Returned vm => Returned (validParticipants && vm)
        | Thrown => Thrown
        end
  | _ => Returned false
  end.

Definition isAddMessageRequestValid (req : AddMessageRequestToChat) : bool :=
  let hasChatId := isValidObjectId E (am_chatId req) in
  let hasMsg :=
    match body_msg req with
    | JStr s => Nat.ltb 0 (String.length (trim s))
    | _ => false
    end in
  let hasSender := is_string (body_msgFrom req) in
  let hasValidDate :=
    match body_msgDateTime req with
    | JUndefined => true
    | v => match new_Date E v with Some _ => true | None => false end
    end in
  hasChatId && hasMsg && hasSender && hasValidDate.

Definition isAddParticipantRequestValid (req : AddParticipantRequest) : bool :=
  match body_participant req with
  | JStr p => isValidObjectId E (ap_chatId req) && isValidObjectId E p
  | _ => false
  end.

(** The seed message a validated body element denotes. *)
Definition seed_of (m : JsValue) : Message :=
  let field k := match js_get m k with Returned v => v | Thrown => JUndefined end in
  mkMessage (str (field "msg")) (str (field "msgFrom"))
            (match field "msgDateTime" with JStr s => Date_parse E s | _ => None end)
            Direct.

(** [req.body] of a validated request, read at its declared type
    [CreateChatPayload]; [messages] is kept only when it is an array, which
    is the test [saveChat] makes before mapping over it. *)
Definition payload_of (req : CreateChatRequest) : CreateChatPayload :=
  mkPayload
    (match body_participants req with JArr ps => map str ps | _ => [] end)
    (match body_messages req with JArr ms => Some (map seed_of ms) | _ => None end).

Definition createChatRoute (req : CreateChatRequest) : Async World HttpResponse :=
  valid <- of_outcome (isCreateChatRequestValid req) ;;
  if negb valid then ret (mkHttp 400 (JsonError "Invalid chat creation request"))
  else
    try_catch
      (saved <- on_db (saveChat (payload_of req)) ;;
       match saved with
       | ErrorObj e => ret (mkHttp 500 (JsonError e))
       | Doc c =>
           found <- on_db (findById_populate E (chat_id c)) ;;
           let populated :=
             match found with Some pc => PopChat pc | None => PopNull end in
           socket_emit "chatUpdate" (mkUpdate populated Created) ;;;
           ret (mkHttp 201 (Json populated))
       end)
      (ret (mkHttp 500 (JsonError "Failed to create chat"))).

Definition addMessageToChatRoute (req : AddMessageRequestToChat)
  : Async World HttpResponse :=
  if negb (isAddMessageRequestValid req)
  then ret (mkHttp 400 (JsonError "Invalid message request"))
  else
    try_catch
      (current <- now ;;
       let messagePayload :=
         mkMessage (str (body_msg req)) (str (body_msgFrom req))
                   (if truthy (body_msgDateTime req)
                    then new_Date E (body_msgDateTime req)
                    else Some current)
                   Direct in
       message <- on_db (createMessage messagePayload) ;;
       match message with
       | ErrorObj _ => ret (mkHttp 500 (JsonError "Message creation failed or ID missing"))
       | Doc m =>
           updatedChat <- on_db (addMessageToChat (am_chatId req) (message_id m)) ;;
           match updatedChat with
           | ErrorObj e => ret (mkHttp 500 (JsonError e))
           | Doc c =>
               populated <- on_db (populateDocument E (chat_id c)) ;;
               socket_emit "chatUpdate" (mkUpdate populated NewMessage) ;;;
               ret (mkHttp 200 (Json populated))
           end
       end)
      (ret (mkHttp 500 (JsonError "Failed to add message to chat"))).

Definition getChatRoute (req : ChatIdRequest) : Async World HttpResponse :=
  try_catch
    (chat <- on_db (getChat (ci_chatId req)) ;;
     match chat with
     | ErrorObj e => ret (mkHttp 404 (JsonError e))
     | Doc c =>
         populated <- on_db (populateDocument E (chat_id c)) ;;
         ret (mkHttp 200 (Json populated))
     end)
    (ret (mkHttp 500 (JsonError "Failed to retrieve chat"))).

(** [(chat as { error?: string }).error !== undefined] *)
Definition has_error (p : Populated) : Outcome bool :=
  match p with
  | PopChat _ => Returned false
  | PopError _ => Returned true
  | PopNull => Thrown
  end.

Definition getChatsByUserRoute (req : GetChatByParticipantsRequest)
  : Async World HttpResponse :=
  try_catch
    (chats <- on_db (getChatsByParticipants [param_username req]) ;;
     populatedChats <-
       on_db (promise_all (map (fun c => populateDocument E (chat_id c)) chats)) ;;
     hasError <- of_outcome (some has_error populatedChats) ;;
     if (hasError : bool)
     then ret (mkHttp 500 (Text "Error retrieving chat: Failed populating chats"))
     else ret (mkHttp 200 (JsonList populatedChats)))
    (ret (mkHttp 500 (JsonError "Failed to retrieve chats"))).

Definition addParticipantToChatRoute (req : AddParticipantRequest)
  : Async World HttpResponse :=
  if negb (isAddParticipantRequestValid req)
  then ret (mkHttp 400 (JsonError "Invalid participant"))
  else
    try_catch
      (updated <- on_db (addParticipantToChat (ap_chatId req)
                                              (str (body_participant req))) ;;
       match updated with
       | ErrorObj e => ret (mkHttp 500 (JsonError e))
       | Doc c =>
           populated <- on_db (populateDocument E (chat_id c)) ;;
           ret (mkHttp 200 (Json populated))
       end)
      (ret (mkHttp 500 (JsonError "Failed to add participant"))).

End Controller.

(** ** A reference environment

    Concrete collaborators, used to run the handlers on sample requests. *)

Definition is_hex (a : ascii) : bool :=
  let n := nat_of_ascii a in
  (Nat.leb 48 n && Nat.leb n 57) || (Nat.leb 65 n && Nat.leb n 70)
  || (Nat.leb 97 n && Nat.leb n 102).

Fixpoint all_hex (s : string) : bool :=
  match s with
  | EmptyString => true
  | String a s' => is_hex a && all_hex s'
  end.

(** The ObjectId test on strings: 24 hexadecimal digits. *)
Definition hex24 (s : string) : bool :=
  Nat.eqb (String.length s) 24 && all_hex s.

(** A date parser that knows the timestamps of the sample requests and
    rejects every other text. *)
Definition sample_Date_parse (s : string) : option Date :=
  if String.eqb s "2025-01-01T00:00:00.000Z" then Some 1735689600000%Z
  else if String.eqb s "2025-01-01T10:00:00.000Z" then Some 1735725600000%Z
  else None.

(** [new Date(v).getTime()], [None] standing for [NaN]. *)
Definition sample_new_Date (v : JsValue) : option Date :=
  match v with
  | JStr s => sample_Date_parse s
  | JNum n => Some n
  | JNull => Some 0%Z
  | JBool b => Some (if b then 1 else 0)%Z
  | _ => None
  end.

(** A chat with its references expanded: participants to the user records
    with those identifiers, messages to their records with the sender
    looked up by the stored [msgFrom]. *)
Definition hydrate (d : Db) (c : Chat) : PopulatedChat :=
  mkPopulatedChat
    (chat_id c)
    (flat_map (fun p => filter (fun u => String.eqb (user_id u) p) (db_users d))
              (participants c))
    (flat_map
       (fun mid =>
          map (fun doc =>
                 mkPopulatedMessage
                   (message_id doc) (msg (message_data doc))
                   (find (fun u => String.eqb (username u) (msgFrom (message_data doc)))
                         (db_users d))
                   (msgDateTime (message_data doc)))
              (filter (fun doc => String.eqb (message_id doc) mid) (db_messages d)))
       (messages c)).

(** Modelled from the spec: [populateDocument] of [utils/database.util] is
    not among the sources.  Given a chat identifier it loads the chat and
    expands message and participant references; a missing chat or a failed
    load is reported as an error-shaped result. *)
Definition spec_populateDocument (id : ObjectId) : Async Db Populated :=
  try_catch
    (store_call (Populate id) ;;;
     fun d =>
       match find (has_id id) (db_chats d) with
       | Some c => (Returned (PopChat (hydrate d c)), d)
       | None => (Thrown, d)
       end)
    (ret (PopError "Error when fetching and populating a document")).

(** [ChatModel.findById(id).populate(..).populate(..)]: [null] when the chat
    is absent, a rejection when the query fails. *)
Definition sample_findById_populate (id : ObjectId) : Async Db (option PopulatedChat) :=
  store_call (Populate id) ;;;
  fun d => (Returned (option_map (hydrate d) (find (has_id id) (db_chats d))), d).

Definition sample_env : Env :=
  mkEnv hex24 sample_Date_parse sample_new_Date
        spec_populateDocument sample_findById_populate.

(** Sample data: three users, two chats, and two connected clients, of
    which client 8 asked to join the room of the first chat and client 7
    joined no room. *)
Definition alice : User := mkUser "65f000000000000000000001" "alice".
Definition bob : User := mkUser "65f000000000000000000002" "bob".
Definition carol : User := mkUser "65f000000000000000000003" "carol".

Definition chat_ab : Chat :=
  mkChat "65f0000000000000000000c1" [user_id alice; user_id bob] [].

Definition chat_bc : Chat :=
  mkChat "65f0000000000000000000c2" [user_id bob; user_id carol] [].

Definition sample_db : Db :=
  mkDb [alice; bob; carol] [] [chat_ab; chat_bc] 16 [] [].

Definition sample_socket : Socket :=
  joinChat 8 (JStr (chat_id chat_ab)) (mkSocket [mkConnection 7 []; mkConnection 8 []] []).

Definition sample_world : World :=
  mkWorld sample_db sample_socket 1735689600000%Z.

Definition with_faults (fs : list bool) (d : Db) : Db :=
  mkDb (db_users d) (db_messages d) (db_chats d) (next_id d) fs (calls d).

(** ** Vocabulary of the statements *)

(** The next [n] store calls do not fail. *)
Definition calm (n : nat) (d : Db) : Prop :=
  forallb negb (firstn n (faults d)) = true.

(** Two states of the store with the same collections. *)
Definition same_data (d d' : Db) : Prop :=
  db_users d' = db_users d /\ db_messages d' = db_messages d /\
  db_chats d' = db_chats d /\ next_id d' = next_id d.

(** The users a username resolves to. *)
Definition users_named (names : list string) (d : Db) : list User :=
  filter (fun u => mem (username u) names) (db_users d).

(** The user [UserModel.findOne] finds for a username, if any. *)
Definition user_named (name : string) (d : Db) : option User :=
  find (fun u => String.eqb (username u) name) (db_users d).

(** [x] is the identifier of a stored user. *)
Definition is_user_id (d : Db) (x : string) : bool := mem x (map user_id (db_users d)).

(** The participants field is not a list, or is a list of fewer than two
    entries. *)
Definition too_few_participants (req : CreateChatRequest) : Prop :=
  forall ps, body_participants req = JArr ps -> List.length ps < 2.

(** A hydration call failed: it rejected, or resolved with something other
    than a hydrated chat. *)
Definition hydration_failed (o : Outcome Populated) : Prop :=
  match o with
  | Returned (PopChat _) => False
  | _ => True
  end.

(** The part of [saveChat] that follows the saves of the seed messages. *)
Definition resolve_and_create (p : CreateChatPayload) (messageIds : list ObjectId)
  : Async Db ChatResponse :=
  users <- UserModel_find (payload_participants p) ;;
  if negb (Nat.eqb (List.length users) (List.length (payload_participants p)))
  then ret (ErrorObj "Some users not found")
  else
    newChat <- ChatModel_create (map user_id users) messageIds ;;
    ret (Doc newChat).

(** The message the handler builds from a request at time [current]. *)
Definition messagePayload (E : Env) (req : AddMessageRequestToChat) (current : Date) : Message :=
  mkMessage (str (body_msg req)) (str (body_msgFrom req))
            (if truthy (body_msgDateTime req)
             then new_Date E (body_msgDateTime req)
             else Some current)
            Direct.

(** An event reached only clients that had joined [room]. *)
Definition scoped_to (s : Socket) (room : string) (e : Emitted) : Prop :=
  forall r, In r (recipients e) ->
            exists c, In c (connections s) /\ conn_id c = r /\ In room (rooms c).

(** Every character of [s] is white space ([s.trim() === '']). *)
Fixpoint all_space (s : string) : bool :=
  match s with
  | EmptyString => true
  | String a s' => is_space a && all_space s'
  end.

(** The number of seed messages of a payload. *)
Definition seed_count (p : CreateChatPayload) : nat :=
  match payload_messages p with
  | Some ms => List.length ms
  | None => 0
  end.

(** The store right after a call [c] was made on it. *)
Definition after_call (c : StoreCall) (d : Db) : Db := snd (store_call c d).

(** ** The client hook ([client/src/hooks/useDirectMessage.ts])

    The two pieces of state the realtime handler updates, and the handler.
    A chat on the client is a hydrated chat; its [_id] is falsy when it is
    the empty text. *)
Record DirectMessageState : Type := mkDirectMessageState {
  dm_chats : list PopulatedChat;
  dm_selectedChat : option PopulatedChat
}.

(** [ChatUpdatePayload] as the client types it. *)
Record ClientChatUpdate : Type := mkClientChatUpdate {
  cu_chat : PopulatedChat;
  cu_type : UpdateType
}.

Definition same_chat_id (a b : PopulatedChat) : bool := String.eqb (pc_id a) (pc_id b).

(** [handleChatUpdate]: the [setChats] and [setSelectedChat] updaters applied
    to the current state. *)
Definition handleChatUpdate (chatUpdate : ClientChatUpdate) (st : DirectMessageState)
  : DirectMessageState :=
  match cu_type chatUpdate with
  | Created =>
      let prev := dm_chats st in
      let exists_ := existsb (fun chat => same_chat_id chat (cu_chat chatUpdate)) prev in
      mkDirectMessageState
        (if exists_ then prev else prev ++ [cu_chat chatUpdate])
        (dm_selectedChat st)
  | NewMessage =>
      mkDirectMessageState
        (dm_chats st)
        (match dm_selectedChat st with
         | Some prev =>
             if negb (String.eqb (pc_id prev) "")
                && negb (String.eqb (pc_id (cu_chat chatUpdate)) "")
                && same_chat_id prev (cu_chat chatUpdate)
             then Some (cu_chat chatUpdate)
             else Some prev
         | None => None
         end)
  end.

(** An update that keeps the identifier of the chat it is applied to. *)
Definition keeps_id (f : Chat -> Chat) : Prop := forall c, chat_id (f c) = chat_id c.

(** Every given username is the username of a stored user, and none is
    given twice. *)
Definition resolvable (names : list string) (d : Db) : Prop :=
  NoDup names /\
  forall name, In name names -> exists u, In u (db_users d) /\ username u = name.



(** The identifiers of the chats the client lists, and of the one it shows. *)
Definition chat_ids (st : DirectMessageState) : list string := map pc_id (dm_chats st).

Definition selected_id (st : DirectMessageState) : option string :=
  option_map pc_id (dm_selectedChat st).

(** The seed messages of a payload, none when the field is missing. *)
Definition payload_seeds (p : CreateChatPayload) : list Message :=
  match payload_messages p with
  | Some ms => ms
  | None => []
  end.

(** A JSON value that is not an object or an array. *)
Definition json_primitive (v : JsValue) : bool :=
  match v with
  | JArr _ | JObj _ => false
  | _ => true
  end.

(** Every character of [s] is an ASCII character. *)
Fixpoint ascii_text (s : string) : bool :=
  match s with
  | EmptyString => true
  | String a s' => Nat.ltb (nat_of_ascii a) 128 && ascii_text s'
  end.

(** * Properties *)

(** ** The store calls *)

Lemma same_data_refl d : same_data d d.
Proof. repeat split. Qed.

Lemma same_data_trans d1 d2 d3 :
  same_data d1 d2 -> same_data d2 d3 -> same_data d1 d3.
Proof.
  unfold same_data; intros (a & b & c & e) (a' & b' & c' & e').
  repeat split; congruence.
Qed.

Lemma calm_le n m d : m <= n -> calm n d -> calm m d.
Proof.
  unfold calm; generalize (faults d) as fs; intros fs; revert n fs.
  induction m as [|m IH]; intros n fs Hle H; [reflexivity|].
  destruct n as [|n]; [lia|].
  destruct fs as [|b fs]; [reflexivity|].
  simpl in *. apply andb_true_iff in H as [Hb H].
  rewrite Hb; simpl. apply (IH n); [lia | exact H].
Qed.

Lemma store_call_spec c d o d' :
  store_call c d = (o, d') ->
  same_data d d' /\ calls d' = calls d ++ [c] /\ faults d' = tl (faults d) /\
  (o = Thrown <-> exists fs, faults d = true :: fs).
Proof.
  unfold store_call; intros H.
  destruct (faults d) as [|[] fs] eqn:Hf; inversion H; subst; simpl;
    (split; [repeat split|]); (split; [reflexivity|]); (split; [reflexivity|]);
    split; intros K; try discriminate; try reflexivity; eauto;
    destruct K; discriminate.
Qed.

Lemma store_call_calm c d n :
  calm (S n) d ->
  exists d', store_call c d = (Returned tt, d') /\ same_data d d' /\
             calls d' = calls d ++ [c] /\ faults d' = tl (faults d) /\ calm n d'.
Proof.
  unfold calm, store_call; intros H.
  destruct (faults d) as [|b fs] eqn:Hf.
  - eexists; split; [reflexivity|]; simpl.
    repeat split. destruct n; reflexivity.
  - simpl in H. apply andb_true_iff in H as [Hb H].
    destruct b; [discriminate|].
    eexists; split; [reflexivity|]; simpl. repeat split. exact H.
Qed.

Lemma store_call_fault c d fs :
  faults d = true :: fs ->
  exists d', store_call c d = (Thrown, d') /\ same_data d d' /\ faults d' = fs.
Proof.
  unfold store_call; intros ->. eexists; split; [reflexivity|]; simpl.
  repeat split.
Qed.

(** Handlers touch the realtime server only through [socket_emit]. *)
Lemma on_db_spec A (m : Async Db A) w o w' :
  on_db m w = (o, w') ->
  m (db w) = (o, db w') /\ socket w' = socket w /\ clock w' = clock w.
Proof.
  unfold on_db; destruct (m (db w)) as [o1 d1]; intros H; inversion H; subst.
  simpl; repeat split.
Qed.

Lemma on_db_run A (m : Async Db A) w o d :
  m (db w) = (o, d) -> on_db m w = (o, mkWorld d (socket w) (clock w)).
Proof. unfold on_db; intros ->; reflexivity. Qed.

(** ** No event from add-participant *)

Section Handlers.

Variable E : Env.

(** C9: the add-participant handler never touches the realtime server:
    whatever the request, the store contents and the fault schedule, the
    list of emitted events and the connections with their rooms are the same
    after the handler as before.  *)
Theorem addParticipant_emits_nothing :
  forall (req : AddParticipantRequest) (w : World),
    socket (snd (addParticipantToChatRoute E req w)) = socket w.
Proof.
  intros req w. unfold addParticipantToChatRoute.
  destruct (isAddParticipantRequestValid E req); simpl; [|reflexivity].
  unfold try_catch, bind, ret.
  destruct (on_db (addParticipantToChat _ _) w) as [o w1] eqn:H1.
  apply on_db_spec in H1 as (_ & Hs1 & _).
  destruct o as [[c|e]|]; simpl; try exact Hs1.
  destruct (on_db (populateDocument E (chat_id c)) w1) as [o2 w2] eqn:H2.
  apply on_db_spec in H2 as (_ & Hs2 & _).
  destruct o2; simpl; congruence.
Qed.

(** ** Rejected create-chat requests *)

(** C8: a create-chat request whose participants field is not a list or has
    fewer than two entries is answered 400 "Invalid chat creation request"
    and leaves the whole world as it was: no message, no chat, no store call
    of any kind (the call log is part of the state), no event. *)
Theorem createChat_too_few_participants :
  forall (req : CreateChatRequest) (w : World),
    too_few_participants req ->
    createChatRoute E req w =
      (Returned (mkHttp 400 (JsonError "Invalid chat creation request")), w).
Proof.
  intros req w H. unfold createChatRoute, isCreateChatRequestValid.
  unfold too_few_participants in H.
  destruct (body_participants req) as [| | | | |ps|]; try reflexivity.
  specialize (H ps eq_refl).
  apply Nat.ltb_lt in H. rewrite H. reflexivity.
Qed.

End Handlers.

(** ** Listing the chats of a participant *)

Lemma mem_In x l : mem x l = true <-> In x l.
Proof.
  unfold mem. rewrite existsb_exists. split.
  - intros (y & Hy & He). apply String.eqb_eq in He. subst; exact Hy.
  - intros H. exists x. split; [exact H | apply String.eqb_refl].
Qed.

Lemma UserModel_find_calm names d n :
  calm (S n) d ->
  exists d', UserModel_find names d = (Returned (users_named names d), d') /\
             same_data d d' /\ calls d' = calls d ++ [UserFind names] /\
             faults d' = tl (faults d) /\ calm n d'.
Proof.
  intros H. destruct (store_call_calm (UserFind names) H) as (d' & Hc & Hd & Hl & Hf & Hn).
  exists d'. unfold UserModel_find, bind. rewrite Hc.
  unfold users_named. pose proof Hd as (Hu & _). rewrite Hu. tauto.
Qed.

Lemma ChatModel_find_all_calm ids d n :
  calm (S n) d ->
  exists d', ChatModel_find_all ids d = (Returned (filter (all_of ids) (db_chats d)), d') /\
             same_data d d' /\ calm n d'.
Proof.
  intros H. destruct (store_call_calm (ChatFind ids) H) as (d' & Hc & Hd & Hl & Hf & Hn).
  exists d'. unfold ChatModel_find_all, bind. rewrite Hc.
  pose proof Hd as (_ & _ & Hch & _). rewrite Hch. tauto.
Qed.

Lemma getChatsByParticipants_calm names d :
  calm 2 d ->
  exists d',
    getChatsByParticipants names d =
      (Returned (filter (all_of (map user_id (users_named names d))) (db_chats d)), d') /\
    same_data d d'.
Proof.
  intros H.
  destruct (UserModel_find_calm names H) as (d1 & H1 & Hd1 & _ & _ & Hn1).
  destruct (ChatModel_find_all_calm (map user_id (users_named names d)) Hn1)
    as (d2 & H2 & Hd2 & _).
  exists d2. unfold getChatsByParticipants, try_catch, bind, ret.
  rewrite H1, H2. pose proof Hd1 as (_ & _ & Hch & _). rewrite Hch.
  split; [reflexivity | eapply same_data_trans; eauto].
Qed.

Lemma all_of_single x c : all_of [x] c = mem x (participants c).
Proof. unfold all_of; simpl. apply andb_true_r. Qed.

(** C6: when the two store queries succeed and the username resolves to the
    user [u], [getChatsByParticipants] returns, in store order, exactly the
    stored chats whose participants contain [u]'s identifier: every returned
    chat contains it and no stored chat containing it is left out. *)
Theorem getChatsByParticipants_exact :
  forall (name : string) (u : User) (d : Db),
    calm 2 d ->
    users_named [name] d = [u] ->
    exists chats d',
      getChatsByParticipants [name] d = (Returned chats, d') /\
      chats = filter (fun c => mem (user_id u) (participants c)) (db_chats d) /\
      forall c, In c chats <-> In c (db_chats d) /\ In (user_id u) (participants c).
Proof.
  intros name u d Hcalm Hu.
  destruct (getChatsByParticipants_calm [name] Hcalm) as (d' & Hrun & _).
  rewrite Hu in Hrun; simpl in Hrun.
  exists (filter (fun c => mem (user_id u) (participants c)) (db_chats d)), d'.
  split; [|split].
  - rewrite Hrun. f_equal. f_equal. apply filter_ext. intros c. apply all_of_single.
  - reflexivity.
  - intros c. rewrite filter_In, mem_In. tauto.
Qed.

(** The username "bob" resolves to one user, who is in both sample chats. *)
Lemma getChatsByParticipants_exact_witness :
  exists chats d',
    getChatsByParticipants ["bob"] sample_db = (Returned chats, d') /\
    chats = filter (fun c => mem (user_id bob) (participants c)) (db_chats sample_db) /\
    forall c, In c chats <->
              In c (db_chats sample_db) /\ In (user_id bob) (participants c).
Proof.
  apply (@getChatsByParticipants_exact "bob" bob sample_db); reflexivity.
Defined.

(** A username that resolves to no user has no chats. *)
Lemma getChatsByParticipants_unknown name d :
  calm 2 d -> users_named [name] d = [] ->
  fst (getChatsByParticipants [name] d) = Returned [].
Proof.
  intros Hcalm Hu.
  destruct (getChatsByParticipants_calm [name] Hcalm) as (d' & Hrun & _).
  rewrite Hrun, Hu; simpl. f_equal. clear.
  induction (db_chats d) as [|c cs IH]; [reflexivity | exact IH].
Qed.

Lemma getChatsByParticipants_fault names d fs :
  faults d = true :: fs \/ faults d = false :: true :: fs ->
  exists d', getChatsByParticipants names d = (Returned [], d') /\ same_data d d'.
Proof.
  intros [Hf | Hf]; unfold getChatsByParticipants, try_catch, bind, ret.
  - unfold UserModel_find, bind.
    destruct (store_call_fault (UserFind names) d Hf) as (d1 & -> & Hd & _).
    eauto.
  - assert (Hcalm : calm 1 d) by (unfold calm; rewrite Hf; reflexivity).
    destruct (UserModel_find_calm names Hcalm) as (d1 & -> & Hd1 & _ & Hf1 & _).
    rewrite Hf in Hf1; simpl in Hf1.
    unfold ChatModel_find_all, bind.
    destruct (store_call_fault (ChatFind (map user_id (users_named names d))) d1 Hf1)
      as (d2 & -> & Hd2 & _).
    exists d2; split; [reflexivity | eapply same_data_trans; eauto].
Qed.

Section Listing.

Variable E : Env.

Lemma getChatsByUserRoute_empty req w d' :
  getChatsByParticipants [param_username req] (db w) = (Returned [], d') ->
  getChatsByUserRoute E req w =
    (Returned (mkHttp 200 (JsonList [])), mkWorld d' (socket w) (clock w)).
Proof.
  intros H. unfold getChatsByUserRoute, try_catch, bind.
  rewrite (on_db_run _ w H). reflexivity.
Qed.

(** C10: when the user lookup or the chat query inside
    [getChatsByParticipants] rejects, the service returns the empty list and
    the handler answers 200 with an empty JSON list; a world in which the
    queries succeed and no stored chat matches gets the very same answer. *)
Theorem getChats_store_failure_reads_as_empty :
  forall (req : GetChatByParticipantsRequest) (w : World) (fs : list bool),
    faults (db w) = true :: fs \/ faults (db w) = false :: true :: fs ->
    fst (getChatsByParticipants [param_username req] (db w)) = Returned [] /\
    fst (getChatsByUserRoute E req w) = Returned (mkHttp 200 (JsonList [])) /\
    forall w0 : World,
      calm 2 (db w0) ->
      filter (all_of (map user_id (users_named [param_username req] (db w0))))
             (db_chats (db w0)) = [] ->
      fst (getChatsByUserRoute E req w0) = fst (getChatsByUserRoute E req w).
Proof.
  intros req w fs Hf.
  destruct (getChatsByParticipants_fault [param_username req] (db w) Hf)
    as (d' & Hrun & _).
  rewrite (getChatsByUserRoute_empty req w Hrun), Hrun; simpl.
  repeat split.
  intros w0 Hcalm Hnone.
  destruct (getChatsByParticipants_calm [param_username req] Hcalm) as (d0 & Hrun0 & _).
  rewrite Hnone in Hrun0.
  rewrite (getChatsByUserRoute_empty req w0 Hrun0). reflexivity.
Qed.

End Listing.

(** The user lookup fails in a world where "alice" does have a chat. *)
Lemma getChats_store_failure_witness :
  fst (getChatsByParticipants ["alice"] (with_faults [true] sample_db)) = Returned [] /\
  fst (getChatsByUserRoute sample_env (mkByUserRequest "alice")
         (mkWorld (with_faults [true] sample_db) (socket sample_world) 0%Z))
    = Returned (mkHttp 200 (JsonList [])) /\
  forall w0 : World,
    calm 2 (db w0) ->
    filter (all_of (map user_id (users_named ["alice"] (db w0)))) (db_chats (db w0)) = [] ->
    fst (getChatsByUserRoute sample_env (mkByUserRequest "alice") w0) =
    fst (getChatsByUserRoute sample_env (mkByUserRequest "alice")
           (mkWorld (with_faults [true] sample_db) (socket sample_world) 0%Z)).
Proof.
  apply (@getChats_store_failure_reads_as_empty sample_env (mkByUserRequest "alice")
           (mkWorld (with_faults [true] sample_db) (socket sample_world) 0%Z) []).
  left; reflexivity.
Defined.

(** ** Hydration failures while listing *)

Lemma collect_no_error os l :
  collect os = Returned l ->
  some has_error l = Returned false ->
  forall o, In o os -> ~ hydration_failed o.
Proof.
  revert l. induction os as [|o os IH]; intros l Hc Hs o' Hin; [destruct Hin|].
  simpl in Hc. destruct o as [p|]; [|discriminate].
  destruct (collect os) as [l'|] eqn:Hl'; [|discriminate].
  inversion Hc; subst; clear Hc. simpl in Hs.
  destruct p as [pc| |]; simpl in Hs; try discriminate.
  destruct Hin as [<- | Hin]; [simpl; tauto|].
  eapply IH; eauto.
Qed.

Section ListingFailures.

Variable E : Env.

(** C5: if any of the hydration calls made for the chats of the listing
    fails (rejects, or resolves with an error object or null), the handler
    answers 500 and the body is an error text, never a list of chats. *)
Theorem getChatsByUserRoute_all_or_nothing :
  forall (req : GetChatByParticipantsRequest) (w : World)
         (chats : list Chat) (d1 d2 : Db) (os : list (Outcome Populated)),
    getChatsByParticipants [param_username req] (db w) = (Returned chats, d1) ->
    settle_all (map (fun c => populateDocument E (chat_id c)) chats) d1 = (os, d2) ->
    (exists o, In o os /\ hydration_failed o) ->
    exists b,
      getChatsByUserRoute E req w =
        (Returned (mkHttp 500 b), mkWorld d2 (socket w) (clock w)) /\
      (b = Text "Error retrieving chat: Failed populating chats" \/
       b = JsonError "Failed to retrieve chats").
Proof.
  intros req w chats d1 d2 os Hchats Hsettle (o & Hin & Hfail).
  unfold getChatsByUserRoute, try_catch, bind.
  rewrite (on_db_run _ w Hchats).
  unfold on_db at 1, promise_all; simpl db. rewrite Hsettle; simpl.
  destruct (collect os) as [l|] eqn:Hl; simpl.
  - unfold of_outcome.
    destruct (some has_error l) as [[|]|] eqn:Hs; simpl.
    + eexists; split; [reflexivity | left; reflexivity].
    + exfalso. exact (collect_no_error os Hl Hs o Hin Hfail).
    + eexists; split; [reflexivity | right; reflexivity].
  - eexists; split; [reflexivity | right; reflexivity].
Qed.

End ListingFailures.

(** The third store call, the hydration of alice's only chat, fails. *)
Lemma getChatsByUserRoute_all_or_nothing_witness :
  exists b,
    getChatsByUserRoute sample_env (mkByUserRequest "alice")
      (mkWorld (with_faults [false; false; true] sample_db) (socket sample_world) 0%Z)
    = (Returned (mkHttp 500 b),
       mkWorld (mkDb (db_users sample_db) [] (db_chats sample_db) 16 []
                     [UserFind ["alice"]; ChatFind [user_id alice];
                      Populate (chat_id chat_ab)])
               (socket sample_world) 0%Z) /\
    (b = Text "Error retrieving chat: Failed populating chats" \/
     b = JsonError "Failed to retrieve chats").
Proof.
  apply (@getChatsByUserRoute_all_or_nothing sample_env (mkByUserRequest "alice")
           (mkWorld (with_faults [false; false; true] sample_db) (socket sample_world) 0%Z)
           [chat_ab]
           (mkDb (db_users sample_db) [] (db_chats sample_db) 16 [true]
                 [UserFind ["alice"]; ChatFind [user_id alice]])
           (mkDb (db_users sample_db) [] (db_chats sample_db) 16 []
                 [UserFind ["alice"]; ChatFind [user_id alice];
                  Populate (chat_id chat_ab)])
           [Returned (PopError "Error when fetching and populating a document")]).
  - reflexivity.
  - reflexivity.
  - eexists; split; [left; reflexivity | exact I].
Defined.

(** ** Adding a participant twice *)

Lemma find_update_first id f cs c :
  find (has_id id) cs = Some c ->
  has_id id (f c) = true ->
  find (has_id id) (update_first id f cs) = Some (f c).
Proof.
  intros Hfind Hid. induction cs as [|x cs IH]; [discriminate|].
  simpl in *. destruct (has_id id x) eqn:Hx.
  - inversion Hfind; subst. simpl. rewrite Hid. reflexivity.
  - simpl. rewrite Hx. apply IH. exact Hfind.
Qed.

Lemma update_first_fixed id f cs c :
  find (has_id id) cs = Some c ->
  f c = c ->
  update_first id f cs = cs.
Proof.
  intros Hfind Hfix. induction cs as [|x cs IH]; [reflexivity|].
  simpl in *. destruct (has_id id x) eqn:Hx.
  - inversion Hfind; subst. rewrite Hfix. reflexivity.
  - f_equal. apply IH. exact Hfind.
Qed.

Lemma addToSet_idempotent uid c : addToSet uid (addToSet uid c) = addToSet uid c.
Proof.
  unfold addToSet; simpl.
  destruct (mem uid (participants c)) eqn:Hm.
  - rewrite Hm. reflexivity.
  - assert (Hin : mem uid (participants c ++ [uid]) = true).
    { apply mem_In, in_or_app. right. left. reflexivity. }
    rewrite Hin. reflexivity.
Qed.

Lemma find_has_id id cs c : find (has_id id) cs = Some c -> has_id id c = true.
Proof. intros H. apply find_some in H. tauto. Qed.

(** What one call of [findByIdAndUpdate] can do. *)
Lemma findByIdAndUpdate_spec id f d o d' :
  ChatModel_findByIdAndUpdate id f d = (o, d') ->
  db_users d' = db_users d /\ db_messages d' = db_messages d /\
  ((o = Thrown /\ db_chats d' = db_chats d /\ exists fs, faults d = true :: fs) \/
   (o = Returned None /\ db_chats d' = db_chats d /\
    find (has_id id) (db_chats d) = None) \/
   (exists c, o = Returned (Some (f c)) /\
              find (has_id id) (db_chats d) = Some c /\
              db_chats d' = update_first id f (db_chats d))).
Proof.
  unfold ChatModel_findByIdAndUpdate, bind.
  destruct (store_call (ChatFindByIdAndUpdate id) d) as [o1 d1] eqn:Hc.
  apply store_call_spec in Hc as ((Hu & Hm & Hch & _) & _ & _ & Hthrow).
  destruct o1 as [[]|].
  - destruct (find (has_id id) (db_chats d1)) as [c|] eqn:Hfind;
      intros H; inversion H; subst; clear H; simpl; rewrite Hch in *.
    + repeat split; try assumption. right; right. exists c. tauto.
    + repeat split; try assumption. right; left. tauto.
  - intros H; inversion H; subst; clear H.
    repeat split; try assumption. left.
    repeat split; try assumption. apply Hthrow. reflexivity.
Qed.

Lemma addParticipantToChat_success chatId uid d c1 d1 :
  addParticipantToChat chatId uid d = (Returned (Doc c1), d1) ->
  exists c0, find (has_id chatId) (db_chats d) = Some c0 /\
             c1 = addToSet uid c0 /\
             db_chats d1 = update_first chatId (addToSet uid) (db_chats d).
Proof.
  unfold addParticipantToChat, try_catch, bind, ret.
  destruct (ChatModel_findByIdAndUpdate chatId (addToSet uid) d) as [o d'] eqn:Hrun.
  apply findByIdAndUpdate_spec in Hrun
    as (_ & _ & [(-> & _) | [(-> & _) | (c0 & -> & Hfind & Hch)]]);
    intros H; inversion H; subst; clear H.
  exists c0. tauto.
Qed.

(** C7: after a first add-participant call that succeeded on a chat, a
    second call with the same chat and participant identifiers leaves every
    stored chat as the first call left it; if it returns a chat, that chat
    has the participants the first call returned (so the same number of
    them); and it does return that chat when the store call does not fail. *)
Theorem addParticipantToChat_idempotent :
  forall (chatId userId : ObjectId) (d d1 d2 : Db) (c1 : Chat)
         (r2 : Outcome ChatResponse),
    addParticipantToChat chatId userId d = (Returned (Doc c1), d1) ->
    addParticipantToChat chatId userId d1 = (r2, d2) ->
    db_chats d2 = db_chats d1 /\
    (forall c2, r2 = Returned (Doc c2) ->
                participants c2 = participants c1 /\
                List.length (participants c2) = List.length (participants c1)) /\
    (calm 1 d1 -> r2 = Returned (Doc c1)).
Proof.
  intros chatId userId d d1 d2 c1 r2 H1 H2.
  apply addParticipantToChat_success in H1 as (c0 & Hfind0 & -> & Hch1).
  assert (Hfind1 : find (has_id chatId) (db_chats d1) = Some (addToSet userId c0)).
  { rewrite Hch1. apply find_update_first; [exact Hfind0|].
    apply find_has_id in Hfind0. exact Hfind0. }
  assert (Hsame : update_first chatId (addToSet userId) (db_chats d1) = db_chats d1).
  { eapply update_first_fixed; [exact Hfind1 | apply addToSet_idempotent]. }
  revert H2. unfold addParticipantToChat, try_catch, bind, ret.
  destruct (ChatModel_findByIdAndUpdate chatId (addToSet userId) d1) as [o d'] eqn:Hrun.
  pose proof (findByIdAndUpdate_spec _ _ _ Hrun)
    as (_ & _ & [(-> & Hch & fs & Hfs) | [(-> & Hch & Hnone) | (c & -> & Hfind & Hch)]]);
    intros H; inversion H; subst; clear H.
  - split; [exact Hch|]. split; [intros c2 Hc2; discriminate|].
    intros Hcalm. unfold calm in Hcalm. rewrite Hfs in Hcalm. discriminate.
  - congruence.
  - rewrite Hfind1 in Hfind. inversion Hfind; subst; clear Hfind.
    rewrite addToSet_idempotent.
    split; [congruence|]. split; [|reflexivity].
    intros c2 Hc2. inversion Hc2; subst. split; reflexivity.
Qed.

(** Carol is added twice to the chat of alice and bob. *)
Lemma addParticipantToChat_idempotent_witness :
  let c1 := addToSet (user_id carol) chat_ab in
  let d1 := snd (addParticipantToChat (chat_id chat_ab) (user_id carol) sample_db) in
  let run2 := addParticipantToChat (chat_id chat_ab) (user_id carol) d1 in
  db_chats (snd run2) = db_chats d1 /\
  (forall c2, fst run2 = Returned (Doc c2) ->
              participants c2 = participants c1 /\
              List.length (participants c2) = List.length (participants c1)) /\
  (calm 1 d1 -> fst run2 = Returned (Doc c1)).
Proof.
  intros c1 d1 run2.
  apply (@addParticipantToChat_idempotent (chat_id chat_ab) (user_id carol)
           sample_db d1 (snd run2) c1 (fst run2)).
  - reflexivity.
  - reflexivity.
Defined.

(** ** Seed messages of a new chat *)

Lemma collect_resolved A (l : list A) : collect (map (@Returned A) l) = Returned l.
Proof. induction l as [|a l IH]; simpl; [reflexivity | rewrite IH; reflexivity]. Qed.

Lemma MessageModel_save_calm m d n :
  calm (S n) d ->
  exists doc d',
    MessageModel_save m d = (Returned doc, d') /\ message_data doc = m /\
    db_messages d' = db_messages d ++ [doc] /\
    db_users d' = db_users d /\ db_chats d' = db_chats d /\
    calls d' = calls d ++ [MessageSave m] /\ calm n d'.
Proof.
  intros H.
  destruct (store_call_calm (MessageSave m) H)
    as (d1 & Hc & (Hu & Hm & Hch & Hi) & Hl & Hf & Hn).
  unfold MessageModel_save, bind. rewrite Hc.
  eexists; eexists; split; [reflexivity|]; simpl.
  rewrite Hu, Hm, Hch, Hl. repeat split. exact Hn.
Qed.

(** When none of the saves fails, every seed message is in the store once
    the promises of [Promise.all] have settled. *)
Lemma save_seeds_calm (ms : list Message) :
  forall d, calm (List.length ms) d ->
  exists docs d',
    settle_all (map (fun m => MessageModel_save (as_direct m)) ms) d
      = (map (@Returned MessageDoc) docs, d') /\
    map message_data docs = map as_direct ms /\
    db_messages d' = db_messages d ++ docs /\
    db_users d' = db_users d /\ db_chats d' = db_chats d /\
    calls d' = calls d ++ map (fun m => MessageSave (as_direct m)) ms.
Proof.
  induction ms as [|m ms IH]; intros d Hcalm.
  - exists [], d. simpl. rewrite !app_nil_r. repeat split.
  - simpl in Hcalm.
    destruct (MessageModel_save_calm (as_direct m) Hcalm)
      as (doc & d1 & Hrun & Hdata & Hm & Hu & Hch & Hl & Hn).
    destruct (IH d1 Hn) as (docs & d2 & Hrun2 & Hdata2 & Hm2 & Hu2 & Hch2 & Hl2).
    exists (doc :: docs), d2. simpl. rewrite Hrun, Hrun2.
    split; [reflexivity|]. split; [rewrite Hdata, Hdata2; reflexivity|].
    rewrite Hm2, Hm, Hu2, Hu, Hch2, Hch, Hl2, Hl, <- !app_assoc.
    repeat split.
Qed.

Lemma UserModel_find_spec names d o d' :
  UserModel_find names d = (o, d') ->
  same_data d d' /\ calls d' = calls d ++ [UserFind names] /\
  (o = Thrown \/ o = Returned (users_named names d)).
Proof.
  unfold UserModel_find, bind.
  destruct (store_call (UserFind names) d) as [o1 d1] eqn:Hc.
  apply store_call_spec in Hc as (Hd & Hl & _).
  destruct o1 as [[]|]; intros H; inversion H; subst; clear H.
  - split; [exact Hd|]. split; [exact Hl|]. right.
    unfold users_named. destruct Hd as (-> & _). reflexivity.
  - split; [exact Hd|]. split; [exact Hl|]. left; reflexivity.
Qed.

Lemma ChatModel_create_spec ps ms d o d' :
  ChatModel_create ps ms d = (o, d') ->
  db_users d' = db_users d /\ db_messages d' = db_messages d /\
  calls d' = calls d ++ [ChatCreate ps ms] /\
  ((o = Thrown /\ db_chats d' = db_chats d) \/
   (exists c, o = Returned c /\ db_chats d' = db_chats d ++ [c] /\
              participants c = ps /\ messages c = ms)).
Proof.
  unfold ChatModel_create, bind.
  destruct (store_call (ChatCreate ps ms) d) as [o1 d1] eqn:Hc.
  apply store_call_spec in Hc as ((Hu & Hm & Hch & _) & Hl & _).
  destruct o1 as [[]|]; intros H; inversion H; subst; clear H; simpl;
    (split; [exact Hu|]); (split; [exact Hm|]); (split; [exact Hl|]).
  - right. eexists. rewrite Hch. repeat split.
  - left. tauto.
Qed.

(** C4: when a chat is created with seed messages and the saves of the
    seeds succeed, the seeds are saved first (the save calls come before the
    user lookup and before the chat creation in the call log) and they are in
    the message store afterwards whatever happens next; in particular when
    [saveChat] then reports an error (users not found, or a failed lookup or
    chat write) no chat has been added and the seed messages are still there. *)
Theorem saveChat_seed_messages_persist :
  forall (p : CreateChatPayload) (ms : list Message) (d d' : Db)
         (r : Outcome ChatResponse),
    payload_messages p = Some ms ->
    calm (List.length ms) d ->
    saveChat p d = (r, d') ->
    exists docs rest,
      db_messages d' = db_messages d ++ docs /\
      map message_data docs = map as_direct ms /\
      calls d' = calls d ++ map (fun m => MessageSave (as_direct m)) ms
                         ++ UserFind (payload_participants p) :: rest /\
      (rest = [] \/ exists ps, rest = [ChatCreate ps (map message_id docs)]) /\
      ((exists e, r = Returned (ErrorObj e) /\ db_chats d' = db_chats d) \/
       (exists c, r = Returned (Doc c) /\ db_chats d' = db_chats d ++ [c] /\
                  messages c = map message_id docs)).
Proof.
  intros p ms d d' r Hp Hcalm.
  destruct (save_seeds_calm ms Hcalm) as (docs & d1 & Hrun & Hdata & Hm & Hu & Hch & Hl).
  unfold saveChat, try_catch. rewrite Hp.
  unfold bind at 1. unfold bind at 1. unfold promise_all.
  rewrite Hrun, collect_resolved. unfold ret at 1.
  unfold bind at 1.
  destruct (UserModel_find (payload_participants p) d1) as [o2 d2] eqn:Hfind.
  apply UserModel_find_spec in Hfind as ((Hu2 & Hm2 & Hch2 & _) & Hl2 & Ho2).
  destruct Ho2 as [-> | ->].
  - unfold ret. intros H; inversion H; subst; clear H.
    exists docs, []. rewrite Hm2, Hm, Hl2, Hl, Hch2, Hch, <- app_assoc.
    repeat split; eauto.
  - destruct (negb _).
    + unfold ret. intros H; inversion H; subst; clear H.
      exists docs, []. rewrite Hm2, Hm, Hl2, Hl, Hch2, Hch, <- app_assoc.
      repeat split; eauto.
    + unfold bind, ret.
      destruct (ChatModel_create _ _ d2) as [o3 d3] eqn:Hcreate.
      apply ChatModel_create_spec in Hcreate
        as (Hu3 & Hm3 & Hl3 & [(-> & Hch3) | (c & -> & Hch3 & Hps & Hms)]);
        intros H; inversion H; subst; clear H;
        eexists docs, [_];
        rewrite Hm3, Hm2, Hm, Hl3, Hl2, Hl, Hch3, Hch2, Hch, <- !app_assoc; simpl.
      * repeat split; eauto.
      * repeat split; eauto 6.
Qed.

(** "zed" is not a user: the chat is refused after the seed was saved. *)
Lemma saveChat_seed_messages_persist_witness :
  let p := mkPayload ["alice"; "zed"] (Some [mkMessage "hi" "alice" None Global]) in
  let run := saveChat p sample_db in
  exists docs rest,
    db_messages (snd run) = db_messages sample_db ++ docs /\
    map message_data docs = map as_direct [mkMessage "hi" "alice" None Global] /\
    calls (snd run) =
      calls sample_db
      ++ map (fun m => MessageSave (as_direct m)) [mkMessage "hi" "alice" None Global]
      ++ UserFind (payload_participants p) :: rest /\
    (rest = [] \/ exists ps, rest = [ChatCreate ps (map message_id docs)]) /\
    ((exists e, fst run = Returned (ErrorObj e) /\
                db_chats (snd run) = db_chats sample_db) \/
     (exists c, fst run = Returned (Doc c) /\
                db_chats (snd run) = db_chats sample_db ++ [c] /\
                messages c = map message_id docs)).
Proof.
  intros p run.
  apply (@saveChat_seed_messages_persist p [mkMessage "hi" "alice" None Global]
           sample_db (snd run) (fst run)); reflexivity.
Defined.

(** A single participant, and a seed list the validator never reads. *)
Lemma createChat_too_few_participants_witness :
  createChatRoute sample_env
    (mkCreateChatRequest (JArr [JStr "alice"]) (JArr [JNull])) sample_world =
  (Returned (mkHttp 400 (JsonError "Invalid chat creation request")), sample_world).
Proof.
  apply (@createChat_too_few_participants sample_env
           (mkCreateChatRequest (JArr [JStr "alice"]) (JArr [JNull])) sample_world).
  intros ps H. inversion H; subst. simpl. lia.
Defined.

(** ** What is stored as a reference *)

Lemma UserModel_findOne_spec name d o d' :
  UserModel_findOne name d = (o, d') ->
  same_data d d' /\
  ((o = Thrown /\ exists fs, faults d = true :: fs) \/
   o = Returned (find (fun u => String.eqb (username u) name) (db_users d))).
Proof.
  unfold UserModel_findOne, bind.
  destruct (store_call (UserFindOne name) d) as [o1 d1] eqn:Hc.
  apply store_call_spec in Hc as (Hd & _ & _ & Hthrow).
  destruct o1 as [[]|]; intros H; inversion H; subst; clear H; (split; [exact Hd|]).
  - right. destruct Hd as (-> & _). reflexivity.
  - left. split; [reflexivity | apply Hthrow; reflexivity].
Qed.

Lemma MessageModel_save_spec m d o d' :
  MessageModel_save m d = (o, d') ->
  db_users d' = db_users d /\ db_chats d' = db_chats d /\
  ((o = Thrown /\ db_messages d' = db_messages d /\ exists fs, faults d = true :: fs) \/
   (exists doc, o = Returned doc /\ message_data doc = m /\
                db_messages d' = db_messages d ++ [doc])).
Proof.
  unfold MessageModel_save, bind.
  destruct (store_call (MessageSave m) d) as [o1 d1] eqn:Hc.
  apply store_call_spec in Hc as ((Hu & Hm & Hch & _) & _ & _ & Hthrow).
  destruct o1 as [[]|]; intros H; inversion H; subst; clear H; simpl;
    (split; [exact Hu|]); (split; [exact Hch|]).
  - right. eexists. rewrite Hm. repeat split.
  - left. repeat split; [exact Hm | apply Hthrow; reflexivity].
Qed.

(** What one call of [createMessage] can do. *)
Lemma createMessage_spec m d o d' :
  createMessage m d = (o, d') ->
  db_users d' = db_users d /\ db_chats d' = db_chats d /\
  ((exists e, o = Returned (ErrorObj e) /\ db_messages d' = db_messages d) \/
   (exists doc u, o = Returned (Doc doc) /\ message_data doc = m /\
                  db_messages d' = db_messages d ++ [doc] /\
                  find (fun u => String.eqb (username u) (msgFrom m)) (db_users d) = Some u)).
Proof.
  unfold createMessage, try_catch, bind, ret.
  destruct (UserModel_findOne (msgFrom m) d) as [o1 d1] eqn:H1.
  apply UserModel_findOne_spec in H1 as ((Hu & Hm & Hch & _) & Ho1).
  destruct Ho1 as [(-> & _) | ->].
  - intros H; inversion H; subst; clear H. repeat split; eauto.
  - destruct (find _ (db_users d)) as [u|] eqn:Hfind.
    + destruct (MessageModel_save m d1) as [o2 d2] eqn:H2.
      apply MessageModel_save_spec in H2
        as (Hu2 & Hch2 & [(-> & Hm2 & _) | (doc & -> & Hdata & Hm2)]);
        intros H; inversion H; subst; clear H;
        (split; [congruence|]); (split; [congruence|]).
      * left. eexists; split; [reflexivity | congruence].
      * right. exists doc, u. rewrite Hm2, Hm. repeat split.
    + intros H; inversion H; subst; clear H. repeat split; eauto.
Qed.

(** The saves of the seed messages, whether or not some of them fail. *)
Lemma save_seeds_frame (ms : list Message) :
  forall d os d',
    settle_all (map (fun m => MessageModel_save (as_direct m)) ms) d = (os, d') ->
    db_users d' = db_users d /\ db_chats d' = db_chats d /\
    exists docs, db_messages d' = db_messages d ++ docs /\
                 forall doc, In doc docs ->
                             exists m, In m ms /\ message_data doc = as_direct m.
Proof.
  induction ms as [|m ms IH]; intros d os d' H; simpl in H.
  - inversion H; subst. repeat split. exists []. rewrite app_nil_r.
    split; [reflexivity | intros doc []].
  - destruct (MessageModel_save (as_direct m) d) as [o1 d1] eqn:H1.
    destruct (settle_all _ d1) as [os2 d2] eqn:H2.
    inversion H; subst; clear H.
    apply MessageModel_save_spec in H1 as (Hu1 & Hch1 & Hcase).
    apply IH in H2 as (Hu2 & Hch2 & docs & Hm2 & Hdocs).
    split; [congruence|]. split; [congruence|].
    destruct Hcase as [(_ & Hm1 & _) | (doc & _ & Hdata & Hm1)].
    + exists docs. rewrite Hm2, Hm1. split; [reflexivity|].
      intros doc Hin. destruct (Hdocs doc Hin) as (m' & Hin' & Hd').
      exists m'. split; [right; exact Hin' | exact Hd'].
    + exists (doc :: docs). rewrite Hm2, Hm1, <- app_assoc. split; [reflexivity|].
      intros doc' [<- | Hin].
      * exists m. split; [left; reflexivity | exact Hdata].
      * destruct (Hdocs doc' Hin) as (m' & Hin' & Hd').
        exists m'. split; [right; exact Hin' | exact Hd'].
Qed.

Lemma resolve_and_create_spec p ids d o d' :
  resolve_and_create p ids d = (o, d') ->
  db_users d' = db_users d /\ db_messages d' = db_messages d /\
  ((o = Thrown /\ db_chats d' = db_chats d) \/
   (exists e, o = Returned (ErrorObj e) /\ db_chats d' = db_chats d) \/
   (exists c, o = Returned (Doc c) /\ db_chats d' = db_chats d ++ [c] /\
              participants c = map user_id (users_named (payload_participants p) d) /\
              messages c = ids)).
Proof.
  unfold resolve_and_create, bind, ret.
  destruct (UserModel_find (payload_participants p) d) as [o1 d1] eqn:H1.
  apply UserModel_find_spec in H1 as ((Hu & Hm & Hch & _) & _ & [-> | ->]).
  - intros H; inversion H; subst; clear H. tauto.
  - destruct (negb _).
    + intros H; inversion H; subst; clear H.
      split; [exact Hu|]. split; [exact Hm|]. right; left. eauto.
    + destruct (ChatModel_create _ ids d1) as [o2 d2] eqn:H2.
      apply ChatModel_create_spec in H2
        as (Hu2 & Hm2 & _ & [(-> & Hch2) | (c & -> & Hch2 & Hps & Hms)]);
        intros H; inversion H; subst; clear H;
        (split; [congruence|]); (split; [congruence|]).
      * left. split; [reflexivity | congruence].
      * right; right. exists c. rewrite Hch2, Hch. tauto.
Qed.

Lemma saveChat_unfold p :
  saveChat p =
  try_catch
    (messageIds <-
       match payload_messages p with
       | Some ms =>
           savedMessages <- promise_all (map (fun m => MessageModel_save (as_direct m)) ms) ;;
           ret (map message_id savedMessages)
       | None => ret []
       end ;;
     resolve_and_create p messageIds)
    (ret (ErrorObj "Failed to save chat")).
Proof. reflexivity. Qed.

(** What one call of [saveChat] can do. *)
Lemma saveChat_spec p d r d' :
  saveChat p d = (r, d') ->
  db_users d' = db_users d /\
  (exists docs,
      db_messages d' = db_messages d ++ docs /\
      forall doc, In doc docs ->
                  exists ms m, payload_messages p = Some ms /\ In m ms /\
                               message_data doc = as_direct m) /\
  ((exists e, r = Returned (ErrorObj e) /\ db_chats d' = db_chats d) \/
   (exists c, r = Returned (Doc c) /\ db_chats d' = db_chats d ++ [c] /\
              participants c = map user_id (users_named (payload_participants p) d))).
Proof.
  rewrite saveChat_unfold. unfold try_catch. unfold bind at 1.
  destruct (payload_messages p) as [ms|] eqn:Hp.
  - unfold bind at 1, promise_all.
    destruct (settle_all _ d) as [os d1] eqn:Hsettle.
    apply save_seeds_frame in Hsettle as (Hu1 & Hch1 & docs & Hm1 & Hdocs).
    assert (Hseeds : forall doc, In doc docs ->
              exists ms' m, Some ms = Some ms' /\ In m ms' /\
                            message_data doc = as_direct m).
    { intros doc Hin. destruct (Hdocs doc Hin) as (m & Hin' & Hd). eauto. }
    destruct (collect os) as [saved|]; unfold ret at 1.
    + destruct (resolve_and_create p (map message_id saved) d1) as [o2 d2] eqn:H2.
      apply resolve_and_create_spec in H2 as (Hu2 & Hm2 & Hcase).
      unfold users_named in Hcase. rewrite Hu1, Hch1 in Hcase.
      destruct Hcase as [(-> & Hch2) | [(e & -> & Hch2) | (c & -> & Hch2 & Hps & _)]];
        unfold ret; intros H; inversion H; subst; clear H;
        (split; [congruence|]);
        (split; [exists docs; split; [congruence | exact Hseeds]|]); eauto 6.
    + intros H; inversion H; subst; clear H.
      split; [congruence|].
      split; [exists docs; split; [congruence | exact Hseeds]|]. eauto.
  - unfold ret at 1.
    destruct (resolve_and_create p [] d) as [o2 d2] eqn:H2.
    apply resolve_and_create_spec in H2 as (Hu2 & Hm2 & Hcase).
    destruct Hcase as [(-> & Hch2) | [(e & -> & Hch2) | (c & -> & Hch2 & Hps & _)]];
      unfold ret; intros H; inversion H; subst; clear H;
      (split; [congruence|]);
      (split; [exists []; rewrite app_nil_r; split; [congruence | intros doc []]|]);
      eauto 6.
Qed.

(** The saves of the seed messages when [Promise.all] resolves: every seed
    was saved, in order, and nothing else. *)
Lemma save_seeds_resolved (ms : list Message) :
  forall d os d' saved,
    settle_all (map (fun m => MessageModel_save (as_direct m)) ms) d = (os, d') ->
    collect os = Returned saved ->
    db_messages d' = db_messages d ++ saved /\
    map message_data saved = map as_direct ms /\
    db_users d' = db_users d /\ db_chats d' = db_chats d.
Proof.
  induction ms as [|m ms IH]; intros d os d' saved H Hc; simpl in H.
  - inversion H; subst. simpl in Hc. inversion Hc; subst.
    rewrite app_nil_r. repeat split.
  - destruct (MessageModel_save (as_direct m) d) as [o1 d1] eqn:H1.
    destruct (settle_all _ d1) as [os2 d2] eqn:H2.
    inversion H; subst; clear H. simpl in Hc.
    destruct o1 as [doc|]; [|discriminate].
    destruct (collect os2) as [saved2|] eqn:Hc2; [|discriminate].
    inversion Hc; subst; clear Hc.
    apply MessageModel_save_spec in H1
      as (Hu1 & Hch1 & [(Hthrown & _) | (doc' & Hdoc & Hdata & Hm1)]); [discriminate|].
    inversion Hdoc; subst doc'; clear Hdoc.
    destruct (IH d1 os2 d' saved2 H2 Hc2) as (Hm2 & Hdata2 & Hu2 & Hch2).
    simpl. rewrite Hm2, Hm1, <- app_assoc, Hdata, Hdata2.
    repeat split; congruence.
Qed.

Lemma resolve_and_create_success p ids d c d' :
  resolve_and_create p ids d = (Returned (Doc c), d') ->
  db_chats d' = db_chats d ++ [c] /\
  participants c = map user_id (users_named (payload_participants p) d) /\
  List.length (users_named (payload_participants p) d)
    = List.length (payload_participants p) /\
  messages c = ids /\
  db_users d' = db_users d /\ db_messages d' = db_messages d.
Proof.
  unfold resolve_and_create, bind, ret.
  destruct (UserModel_find (payload_participants p) d) as [o1 d1] eqn:H1.
  apply UserModel_find_spec in H1 as ((Hu & Hm & Hch & _) & _ & [-> | ->]);
    [discriminate|].
  destruct (Nat.eqb _ _) eqn:Hlen; cbn [negb]; [|discriminate].
  apply Nat.eqb_eq in Hlen.
  destruct (ChatModel_create _ ids d1) as [o2 d2] eqn:H2.
  apply ChatModel_create_spec in H2
    as (Hu2 & Hm2 & _ & [(-> & _) | (c' & -> & Hch2 & Hps & Hms)]);
    intros H; inversion H; subst; clear H.
  rewrite Hch2, Hch. repeat split; congruence.
Qed.

(** What a successful [saveChat] stored. *)
Lemma saveChat_success p d c d' :
  saveChat p d = (Returned (Doc c), d') ->
  exists docs,
    db_chats d' = db_chats d ++ [c] /\
    participants c = map user_id (users_named (payload_participants p) d) /\
    List.length (participants c) = List.length (payload_participants p) /\
    db_messages d' = db_messages d ++ docs /\
    map message_data docs = map as_direct (payload_seeds p) /\
    messages c = map message_id docs.
Proof.
  rewrite saveChat_unfold. unfold try_catch, payload_seeds. unfold bind at 1.
  assert (Hfinish : forall docs d1 o2 d2,
            db_messages d1 = db_messages d ++ docs ->
            db_users d1 = db_users d -> db_chats d1 = db_chats d ->
            resolve_and_create p (map message_id docs) d1 = (o2, d2) ->
            match o2 with
            | Returned a => (Returned a, d2)
            | Thrown => ret (ErrorObj "Failed to save chat") d2
            end = (Returned (Doc c), d') ->
            db_chats d' = db_chats d ++ [c] /\
            participants c = map user_id (users_named (payload_participants p) d) /\
            List.length (participants c) = List.length (payload_participants p) /\
            db_messages d' = db_messages d ++ docs /\
            messages c = map message_id docs).
  { intros docs d1 o2 d2 Hm1 Hu1 Hch1 Hrun Hres.
    destruct o2 as [[c'|e]|]; unfold ret in Hres; inversion Hres; subst; clear Hres.
    apply resolve_and_create_success in Hrun as (Hch & Hps & Hlen & Hms & _ & Hm2).
    unfold users_named in Hps, Hlen. rewrite Hu1 in Hps, Hlen.
    fold (users_named (payload_participants p) d) in Hps, Hlen.
    split; [congruence|]. split; [exact Hps|].
    split; [rewrite Hps, length_map; exact Hlen|]. split; congruence. }
  destruct (payload_messages p) as [ms|].
  - unfold bind at 1, promise_all.
    destruct (settle_all _ d) as [os d1] eqn:Hsettle.
    destruct (collect os) as [saved|] eqn:Hcollect.
    + unfold ret at 1.
      destruct (save_seeds_resolved ms d Hsettle Hcollect) as (Hm1 & Hdata & Hu1 & Hch1).
      destruct (resolve_and_create p (map message_id saved) d1) as [o2 d2] eqn:Hrun.
      intros Hres.
      destruct (Hfinish saved d1 o2 d2 Hm1 Hu1 Hch1 Hrun Hres) as (H1 & H2 & H3 & H4 & H5).
      exists saved. tauto.
    + unfold ret. intros H; inversion H.
  - unfold ret at 1.
    destruct (resolve_and_create p [] d) as [o2 d2] eqn:Hrun.
    intros Hres.
    destruct (Hfinish [] d o2 d2 (eq_sym (app_nil_r _)) eq_refl eq_refl Hrun Hres)
      as (H1 & H2 & H3 & H4 & H5).
    exists []. simpl. tauto.
Qed.

(** C2 (as amended): what the services store as references.
    - A chat created by [saveChat] has as participants exactly the
      identifiers of the stored users whose usernames were given, one per
      given name, and as messages the identifiers of the saved seeds, which
      are the given seeds marked direct.
    - A message saved by [createMessage] is the message it was given: its
      sender is the username of a stored user, not that user's identifier.
    - Whatever the outcome of [saveChat], the messages it saved are seeds of
      the payload marked direct, with the sender as given.
    - [addParticipantToChat] stores the identifier it was given, as given
      and with no lookup among the users: the updated chat is the first chat
      with the target identifier, with the given identifier appended to its
      participants unless it was already among them.
    - An add-message request answered 200 went through [createMessage] with
      the text and the sender of the request: the saved message has the
      request's sender, the username of a stored user, as its sender. *)
Theorem stored_references :
  (forall p d c d',
      saveChat p d = (Returned (Doc c), d') ->
      exists docs,
        db_chats d' = db_chats d ++ [c] /\
        participants c = map user_id (users_named (payload_participants p) d) /\
        List.length (participants c) = List.length (payload_participants p) /\
        (forall x, In x (participants c) ->
                   exists u, In u (db_users d) /\ user_id u = x /\
                             In (username u) (payload_participants p)) /\
        db_messages d' = db_messages d ++ docs /\
        map message_data docs = map as_direct (payload_seeds p) /\
        messages c = map message_id docs) /\
  (forall m d doc d',
      createMessage m d = (Returned (Doc doc), d') ->
      db_messages d' = db_messages d ++ [doc] /\
      message_data doc = m /\
      exists u, In u (db_users d) /\ username u = msgFrom (message_data doc)) /\
  (forall p d r d',
      saveChat p d = (r, d') ->
      exists docs,
        db_messages d' = db_messages d ++ docs /\
        forall doc, In doc docs ->
                    exists ms m, payload_messages p = Some ms /\ In m ms /\
                                 message_data doc = as_direct m) /\
  (forall chatId userId d c d',
      addParticipantToChat chatId userId d = (Returned (Doc c), d') ->
      exists c0,
        find (has_id chatId) (db_chats d) = Some c0 /\
        chat_id c = chat_id c0 /\ messages c = messages c0 /\
        participants c =
          (if mem userId (participants c0)
           then participants c0
           else participants c0 ++ [userId]) /\
        db_chats d' = update_first chatId (addToSet userId) (db_chats d) /\
        find (has_id chatId) (db_chats d') = Some c) /\
  (forall E req w w' r,
      addMessageToChatRoute E req w = (Returned r, w') ->
      status r = 200 ->
      exists doc d1 u,
        createMessage (messagePayload E req (clock w)) (db w) = (Returned (Doc doc), d1) /\
        db_messages d1 = db_messages (db w) ++ [doc] /\
        message_data doc = messagePayload E req (clock w) /\
        msgFrom (message_data doc) = str (body_msgFrom req) /\
        In u (db_users (db w)) /\ username u = str (body_msgFrom req)).
Proof.
  split; [|split; [|split; [|split]]].
  - intros p d c d' H.
    apply saveChat_success in H as (docs & Hch & Hps & Hlen & Hm & Hdata & Hms).
    exists docs. split; [exact Hch|]. split; [exact Hps|]. split; [exact Hlen|].
    split; [|tauto].
    intros x Hx. rewrite Hps in Hx. apply in_map_iff in Hx as (u & Hid & Hu).
    unfold users_named in Hu. apply filter_In in Hu as (Hin & Hname).
    exists u. rewrite mem_In in Hname. tauto.
  - intros m d doc d' H.
    apply createMessage_spec in H as (_ & _ & [(e & He & _) | (doc' & u & Hd & Hdata & Hm & Hfind)]);
      [discriminate|].
    inversion Hd; subst doc'; clear Hd. split; [exact Hm|].
    split; [exact Hdata|]. rewrite Hdata.
    apply find_some in Hfind as (Hin & Hname).
    exists u. split; [exact Hin | apply String.eqb_eq; exact Hname].
  - intros p d r d' H. apply saveChat_spec in H as (_ & Hdocs & _). exact Hdocs.
  - intros chatId userId d c d' H.
    apply addParticipantToChat_success in H as (c0 & Hfind & -> & Hch).
    exists c0. split; [exact Hfind|]. split; [reflexivity|]. split; [reflexivity|].
    split; [reflexivity|]. split; [exact Hch|].
    rewrite Hch. apply find_update_first; [exact Hfind | exact (find_has_id _ _ Hfind)].
  - intros E req w w' r Hrun H200. unfold addMessageToChatRoute in Hrun.
    destruct (isAddMessageRequestValid E req); cbn [negb] in Hrun.
    2:{ inversion Hrun; subst. discriminate. }
    unfold try_catch in Hrun. unfold bind at 1 in Hrun. unfold now in Hrun.
    cbv beta iota in Hrun. unfold bind at 1 in Hrun.
    destruct (on_db (createMessage _) w) as [o1 w1] eqn:H1.
    apply on_db_spec in H1 as (H1 & _ & _).
    pose proof (createMessage_spec _ _ H1)
      as (_ & _ & [(e & -> & _) | (doc & u & -> & Hdata & Hm & Hfind)]).
    { unfold ret in Hrun. inversion Hrun; subst. discriminate. }
    apply find_some in Hfind as (Hin & Hname). apply String.eqb_eq in Hname.
    exists doc, (db w1), u.
    split; [exact H1|]. split; [exact Hm|]. split; [exact Hdata|].
    rewrite Hdata. split; [reflexivity|]. split; [exact Hin | exact Hname].
Qed.

(** The parts at work on the sample store: a chat for alice and carol with
    one seed, a message from alice, carol added to a chat, and a message
    posted by alice through the handler. *)
Lemma stored_references_witness :
  (let seed := mkMessage "hi" "alice" None Global in
   let p := mkPayload ["carol"; "alice"] (Some [seed]) in
   let c := mkChat (oid 17) [user_id alice; user_id carol] [oid 16] in
   exists docs,
     db_chats (snd (saveChat p sample_db)) = db_chats sample_db ++ [c] /\
     participants c = map user_id (users_named (payload_participants p) sample_db) /\
     List.length (participants c) = List.length (payload_participants p) /\
     (forall x, In x (participants c) ->
                exists u, In u (db_users sample_db) /\ user_id u = x /\
                          In (username u) (payload_participants p)) /\
     db_messages (snd (saveChat p sample_db)) = db_messages sample_db ++ docs /\
     map message_data docs = map as_direct (payload_seeds p) /\
     messages c = map message_id docs) /\
  (let m := mkMessage "hi" "alice" None Direct in
   let doc := mkMessageDoc (oid 16) m in
   db_messages (snd (createMessage m sample_db)) = db_messages sample_db ++ [doc] /\
   message_data doc = m /\
   exists u, In u (db_users sample_db) /\ username u = msgFrom (message_data doc)) /\
  (let c := addToSet (user_id carol) chat_ab in
   let d' := snd (addParticipantToChat (chat_id chat_ab) (user_id carol) sample_db) in
   exists c0,
     find (has_id (chat_id chat_ab)) (db_chats sample_db) = Some c0 /\
     chat_id c = chat_id c0 /\ messages c = messages c0 /\
     participants c =
       (if mem (user_id carol) (participants c0)
        then participants c0
        else participants c0 ++ [user_id carol]) /\
     db_chats d' = update_first (chat_id chat_ab) (addToSet (user_id carol))
                                (db_chats sample_db) /\
     find (has_id (chat_id chat_ab)) (db_chats d') = Some c) /\
  (let req := mkAddMessageRequest (chat_id chat_ab) (JStr "hi") (JStr "alice") JUndefined in
   exists doc d1 u,
     createMessage (messagePayload sample_env req (clock sample_world)) (db sample_world)
       = (Returned (Doc doc), d1) /\
     db_messages d1 = db_messages (db sample_world) ++ [doc] /\
     message_data doc = messagePayload sample_env req (clock sample_world) /\
     msgFrom (message_data doc) = "alice" /\
     In u (db_users (db sample_world)) /\ username u = "alice").
Proof.
  destruct stored_references as (Hchat & Hmsg & _ & Hadd & Hroute).
  split; [|split; [|split]].
  - intros seed p c. apply (Hchat p sample_db c (snd (saveChat p sample_db))). reflexivity.
  - intros m doc. apply (Hmsg m sample_db doc (snd (createMessage m sample_db))).
    reflexivity.
  - intros c d'.
    apply (Hadd (chat_id chat_ab) (user_id carol) sample_db c d'). reflexivity.
  - intros req.
    apply (Hroute sample_env req sample_world
             (snd (addMessageToChatRoute sample_env req sample_world))
             (mkHttp 200 (Json (PopChat
                (hydrate (db (snd (addMessageToChatRoute sample_env req sample_world)))
                         (push_message (oid 16) chat_ab))))));
      reflexivity.
Defined.

(** Against C2 as stated, on two counts.  The message saved for the known
    sender "alice" carries the username "alice" as its sender, and that
    text is not the identifier of any stored user.  And a valid
    add-participant request may carry an identifier that belongs to no
    user: it is stored among the participants all the same, so a stored
    participant reference need not resolve to any user. *)
Lemma references_stored_as_given :
  (exists doc d',
      createMessage (mkMessage "hi" "alice" None Direct) sample_db
        = (Returned (Doc doc), d') /\
      In doc (db_messages d') /\
      msgFrom (message_data doc) = username alice /\
      is_user_id d' (msgFrom (message_data doc)) = false) /\
  (let stranger := "65f0000000000000000000ff" in
   isAddParticipantRequestValid sample_env
     (mkAddParticipantRequest (chat_id chat_ab) (JStr stranger)) = true /\
   exists c d',
     addParticipantToChat (chat_id chat_ab) stranger sample_db = (Returned (Doc c), d') /\
     find (has_id (chat_id chat_ab)) (db_chats d') = Some c /\
     In stranger (participants c) /\
     is_user_id d' stranger = false).
Proof.
  split.
  - eexists; eexists. split; [reflexivity|]. simpl.
    split; [left; reflexivity|]. split; reflexivity.
  - simpl. split; [reflexivity|].
    eexists; eexists. split; [reflexivity|]. simpl.
    split; [reflexivity|]. split; [|reflexivity].
    right; right; left; reflexivity.
Qed.

(** ** Adding a message *)

Lemma addMessageToChat_spec chatId mid d o d' :
  addMessageToChat chatId mid d = (o, d') ->
  db_users d' = db_users d /\ db_messages d' = db_messages d /\
  ((exists e, o = Returned (ErrorObj e) /\ db_chats d' = db_chats d) \/
   (exists c0, o = Returned (Doc (push_message mid c0)) /\
               find (has_id chatId) (db_chats d) = Some c0 /\
               db_chats d' = update_first chatId (push_message mid) (db_chats d))).
Proof.
  unfold addMessageToChat, try_catch, bind, ret.
  destruct (ChatModel_findByIdAndUpdate chatId (push_message mid) d) as [o1 d1] eqn:Hrun.
  apply findByIdAndUpdate_spec in Hrun
    as (Hu & Hm & [(-> & Hch & _) | [(-> & Hch & _) | (c0 & -> & Hfind & Hch)]]);
    intros H; inversion H; subst; clear H;
    (split; [exact Hu|]); (split; [exact Hm|]); eauto 6.
Qed.

Lemma UserModel_findOne_calm name d n :
  calm (S n) d ->
  exists d', UserModel_findOne name d = (Returned (user_named name d), d') /\
             same_data d d' /\ calm n d'.
Proof.
  intros H. destruct (store_call_calm (UserFindOne name) H) as (d' & Hc & Hd & _ & _ & Hn).
  exists d'. unfold UserModel_findOne, bind. rewrite Hc.
  unfold user_named. pose proof Hd as (Hu & _). rewrite Hu. tauto.
Qed.

Lemma createMessage_known m d u n :
  calm (S (S n)) d ->
  user_named (msgFrom m) d = Some u ->
  exists doc d',
    createMessage m d = (Returned (Doc doc), d') /\ message_data doc = m /\
    db_messages d' = db_messages d ++ [doc] /\ db_chats d' = db_chats d /\ calm n d'.
Proof.
  intros Hcalm Hu.
  destruct (UserModel_findOne_calm (msgFrom m) Hcalm) as (d1 & H1 & (_ & Hm1 & Hch1 & _) & Hn1).
  destruct (MessageModel_save_calm m Hn1) as (doc & d2 & H2 & Hdata & Hm2 & _ & Hch2 & _ & Hn2).
  exists doc, d2. unfold createMessage, try_catch, bind, ret.
  rewrite H1, Hu, H2. repeat split; congruence.
Qed.

Lemma createMessage_unknown m d n :
  calm (S n) d ->
  user_named (msgFrom m) d = None ->
  exists d',
    createMessage m d = (Returned (ErrorObj "User not found"), d') /\ same_data d d'.
Proof.
  intros Hcalm Hu.
  destruct (UserModel_findOne_calm (msgFrom m) Hcalm) as (d1 & H1 & Hd1 & _).
  exists d1. unfold createMessage, try_catch, bind, ret.
  rewrite H1, Hu. tauto.
Qed.

Lemma addMessageToChat_absent chatId mid d :
  calm 1 d ->
  find (has_id chatId) (db_chats d) = None ->
  exists d',
    addMessageToChat chatId mid d = (Returned (ErrorObj "Chat not found"), d') /\
    same_data d d'.
Proof.
  intros Hcalm Hnone.
  destruct (store_call_calm (ChatFindByIdAndUpdate chatId) Hcalm)
    as (d1 & Hc & Hd & _).
  exists d1. unfold addMessageToChat, try_catch, bind, ret, ChatModel_findByIdAndUpdate, bind.
  pose proof Hd as (_ & _ & Hch & _).
  rewrite Hc, Hch, Hnone. tauto.
Qed.

Section AddMessage.

Variable E : Env.

Lemma addMessageToChatRoute_valid req w :
  isAddMessageRequestValid E req = true ->
  addMessageToChatRoute E req w =
  try_catch
    (message <- on_db (createMessage (messagePayload E req (clock w))) ;;
     match message with
     | ErrorObj _ => ret (mkHttp 500 (JsonError "Message creation failed or ID missing"))
     | Doc m =>
         updatedChat <- on_db (addMessageToChat (am_chatId req) (message_id m)) ;;
         match updatedChat with
         | ErrorObj e => ret (mkHttp 500 (JsonError e))
         | Doc c =>
             populated <- on_db (populateDocument E (chat_id c)) ;;
             socket_emit "chatUpdate" (mkUpdate populated NewMessage) ;;;
             ret (mkHttp 200 (Json populated))
         end
     end)
    (ret (mkHttp 500 (JsonError "Failed to add message to chat"))) w.
Proof.
  intros Hvalid. unfold addMessageToChatRoute. rewrite Hvalid. reflexivity.
Qed.

(** C1 (as amended): a valid add-message request for a chat identifier that
    is not in the store is answered with status 500, whatever the sender and
    whatever store calls fail; no event is emitted and no chat changes.
    When the store calls succeed: with a known sender the body is the
    service's "Chat not found" error and the message has been saved all the
    same; with an unknown sender the body is "Message creation failed or ID
    missing" and nothing has been saved. *)
Theorem addMessage_unknown_chat :
  forall (req : AddMessageRequestToChat) (w : World),
    isAddMessageRequestValid E req = true ->
    find (has_id (am_chatId req)) (db_chats (db w)) = None ->
    (exists b, fst (addMessageToChatRoute E req w) = Returned (mkHttp 500 b)) /\
    socket (snd (addMessageToChatRoute E req w)) = socket w /\
    db_chats (db (snd (addMessageToChatRoute E req w))) = db_chats (db w) /\
    (calm 3 (db w) ->
     match user_named (str (body_msgFrom req)) (db w) with
     | Some _ =>
         fst (addMessageToChatRoute E req w)
           = Returned (mkHttp 500 (JsonError "Chat not found")) /\
         exists doc,
           db_messages (db (snd (addMessageToChatRoute E req w)))
             = db_messages (db w) ++ [doc] /\
           msgFrom (message_data doc) = str (body_msgFrom req)
     | None =>
         fst (addMessageToChatRoute E req w)
           = Returned (mkHttp 500 (JsonError "Message creation failed or ID missing")) /\
         db_messages (db (snd (addMessageToChatRoute E req w))) = db_messages (db w)
     end).
Proof.
  intros req w Hvalid Hnone.
  rewrite (addMessageToChatRoute_valid req w Hvalid).
  assert (Hgeneral :
    forall o w', 
      try_catch
        (message <- on_db (createMessage (messagePayload E req (clock w))) ;;
         match message with
         | ErrorObj _ => ret (mkHttp 500 (JsonError "Message creation failed or ID missing"))
         | Doc m =>
             updatedChat <- on_db (addMessageToChat (am_chatId req) (message_id m)) ;;
             match updatedChat with
             | ErrorObj e => ret (mkHttp 500 (JsonError e))
             | Doc c =>
                 populated <- on_db (populateDocument E (chat_id c)) ;;
                 socket_emit "chatUpdate" (mkUpdate populated NewMessage) ;;;
                 ret (mkHttp 200 (Json populated))
             end
         end)
        (ret (mkHttp 500 (JsonError "Failed to add message to chat"))) w = (o, w') ->
      (exists b, o = Returned (mkHttp 500 b)) /\ socket w' = socket w /\
      db_chats (db w') = db_chats (db w)).
  { intros o w'. unfold try_catch. unfold bind at 1.
    destruct (on_db (createMessage _) w) as [o1 w1] eqn:H1.
    apply on_db_spec in H1 as (H1 & Hs1 & _).
    apply createMessage_spec in H1
      as (_ & Hch1 & [(e & -> & _) | (doc & u & -> & _)]).
    - unfold ret. intros H; inversion H; subst; clear H. eauto.
    - unfold bind at 1.
      destruct (on_db (addMessageToChat _ _) w1) as [o2 w2] eqn:H2.
      apply on_db_spec in H2 as (H2 & Hs2 & _).
      apply addMessageToChat_spec in H2
        as (_ & _ & [(e & -> & Hch2) | (c0 & _ & Hfind & _)]).
      + unfold ret. intros H; inversion H; subst; clear H.
        split; [eauto|]. split; congruence.
      + rewrite Hch1, Hnone in Hfind. discriminate. }
  destruct (Hgeneral _ _ (surjective_pairing _)) as (Hb & Hs & Hch). clear Hgeneral.
  split; [exact Hb|]. split; [exact Hs|]. split; [exact Hch|].
  clear Hb Hs Hch. intros Hcalm.
  destruct (user_named (str (body_msgFrom req)) (db w)) as [u|] eqn:Hu.
  - destruct (@createMessage_known (messagePayload E req (clock w)) (db w) u 1 Hcalm Hu)
      as (doc & d1 & Hc1 & Hdata & Hm1 & Hch1 & Hn1).
    assert (Hnone1 : find (has_id (am_chatId req)) (db_chats d1) = None) by congruence.
    destruct (@addMessageToChat_absent (am_chatId req) (message_id doc) d1 Hn1 Hnone1)
      as (d2 & Hc2 & (_ & Hm2 & _)).
    match goal with
    | |- context [fst ?run] =>
        assert (Hrun : run = (Returned (mkHttp 500 (JsonError "Chat not found")),
                              mkWorld d2 (socket w) (clock w)))
    end.
    { unfold try_catch. unfold bind at 1. rewrite (on_db_run _ w Hc1).
      unfold bind at 1.
      rewrite (on_db_run _ (mkWorld d1 (socket w) (clock w)) Hc2). reflexivity. }
    rewrite Hrun; simpl.
    split; [reflexivity|]. exists doc. rewrite Hm2, Hm1, Hdata. split; reflexivity.
  - assert (Hcalm1 : calm 1 (db w)) by (apply (calm_le (n := 3)); [lia | exact Hcalm]).
    destruct (@createMessage_unknown (messagePayload E req (clock w)) (db w) 0 Hcalm1 Hu)
      as (d1 & Hc1 & (_ & Hm1 & _)).
    match goal with
    | |- context [fst ?run] =>
        assert (Hrun : run = (Returned (mkHttp 500
                                 (JsonError "Message creation failed or ID missing")),
                              mkWorld d1 (socket w) (clock w)))
    end.
    { unfold try_catch. unfold bind at 1. rewrite (on_db_run _ w Hc1). reflexivity. }
    rewrite Hrun; simpl. split; [reflexivity | exact Hm1].
Qed.

End AddMessage.

(** ** The event of a successful add-message *)

Section Broadcast.

Variable E : Env.

(** C3 (as amended): an add-message request answered 200 saved one message,
    appended its identifier to the target chat, hydrated that chat, and
    emitted exactly one "chatUpdate" event of type newMessage carrying the
    hydration result; the response body is that same result.  The event went
    to every connected client, not only to those that joined the chat's
    room. *)
Theorem addMessage_success_broadcast :
  forall (req : AddMessageRequestToChat) (w w' : World) (r : HttpResponse),
    addMessageToChatRoute E req w = (Returned r, w') ->
    status r = 200 ->
    exists populated c0 doc d1,
      body r = Json populated /\
      connections (socket w') = connections (socket w) /\
      emitted (socket w') =
        emitted (socket w)
        ++ [mkEmitted "chatUpdate" (mkUpdate populated NewMessage)
                      (map conn_id (connections (socket w)))] /\
      find (has_id (am_chatId req)) (db_chats (db w)) = Some c0 /\
      db_messages d1 = db_messages (db w) ++ [doc] /\
      db_chats d1 =
        update_first (am_chatId req) (push_message (message_id doc)) (db_chats (db w)) /\
      populateDocument E (chat_id c0) d1 = (Returned populated, db w').
Proof.
  intros req w w' r Hrun H200.
  destruct (isAddMessageRequestValid E req) eqn:Hvalid.
  2:{ unfold addMessageToChatRoute in Hrun. rewrite Hvalid in Hrun.
      inversion Hrun; subst. discriminate. }
  rewrite (addMessageToChatRoute_valid E req w Hvalid) in Hrun.
  revert Hrun. unfold try_catch. unfold bind at 1.
  destruct (on_db (createMessage _) w) as [o1 w1] eqn:H1.
  apply on_db_spec in H1 as (H1 & Hs1 & _).
  apply createMessage_spec in H1
    as (_ & Hch1 & [(e & -> & _) | (doc & u & -> & _ & Hm1 & _)]).
  { unfold ret. intros H; inversion H; subst. discriminate. }
  unfold bind at 1.
  destruct (on_db (addMessageToChat _ _) w1) as [o2 w2] eqn:H2.
  apply on_db_spec in H2 as (H2 & Hs2 & _).
  apply addMessageToChat_spec in H2
    as (_ & Hm2 & [(e & -> & _) | (c0 & -> & Hfind & Hch2)]).
  { unfold ret. intros H; inversion H; subst. discriminate. }
  unfold bind at 1. simpl chat_id.
  destruct (on_db (populateDocument E (chat_id c0)) w2) as [o3 w3] eqn:H3.
  apply on_db_spec in H3 as (H3 & Hs3 & _).
  destruct o3 as [populated|].
  2:{ unfold ret. intros H; inversion H; subst. discriminate. }
  unfold bind, socket_emit, ret. intros H; inversion H; subst; clear H. simpl.
  exists populated, c0, doc, (db w2).
  rewrite Hs3, Hs2, Hs1. repeat split; try congruence.
Qed.

(** X25: for comparison with add-participant: a create-chat request
    answered 201 emitted exactly one "chatUpdate" event of type created, to
    every connected client, with the response body as its chat. *)
Lemma createChat_success_broadcast :
  forall (req : CreateChatRequest) (w w' : World) (r : HttpResponse),
    createChatRoute E req w = (Returned r, w') ->
    status r = 201 ->
    exists populated,
      body r = Json populated /\
      connections (socket w') = connections (socket w) /\
      emitted (socket w') =
        emitted (socket w)
        ++ [mkEmitted "chatUpdate" (mkUpdate populated Created)
                      (map conn_id (connections (socket w)))].
Proof.
  intros req w w' r. unfold createChatRoute, of_outcome. unfold bind at 1.
  destruct (isCreateChatRequestValid E req) as [[|]|]; cbv beta iota; cbn [negb].
  2:{ unfold ret. intros H; inversion H; subst. discriminate. }
  2:{ intros H; discriminate H. }
  unfold try_catch. unfold bind at 1.
  destruct (on_db (saveChat _) w) as [o1 w1] eqn:H1.
  apply on_db_spec in H1 as (_ & Hs1 & _).
  destruct o1 as [[c|e]|].
  2,3: unfold ret; intros H; inversion H; subst; discriminate.
  unfold bind at 1.
  destruct (on_db (findById_populate E (chat_id c)) w1) as [o2 w2] eqn:H2.
  apply on_db_spec in H2 as (_ & Hs2 & _).
  destruct o2 as [found|].
  2:{ unfold ret. intros H; inversion H; subst. discriminate. }
  unfold bind, socket_emit, ret. intros H _; inversion H; subst; clear H. simpl.
  eexists. rewrite Hs2, Hs1. repeat split.
Qed.

End Broadcast.

(** Alice posts to the chat she shares with bob. *)
Lemma addMessage_success_broadcast_witness :
  let req := mkAddMessageRequest (chat_id chat_ab) (JStr "hi") (JStr "alice") JUndefined in
  let run := addMessageToChatRoute sample_env req sample_world in
  let r := mkHttp 200 (Json (PopChat (hydrate (db (snd run))
                                        (push_message (oid 16) chat_ab)))) in
  exists populated c0 doc d1,
    body r = Json populated /\
    connections (socket (snd run)) = connections (socket sample_world) /\
    emitted (socket (snd run)) =
      emitted (socket sample_world)
      ++ [mkEmitted "chatUpdate" (mkUpdate populated NewMessage)
                    (map conn_id (connections (socket sample_world)))] /\
    find (has_id (am_chatId req)) (db_chats (db sample_world)) = Some c0 /\
    db_messages d1 = db_messages (db sample_world) ++ [doc] /\
    db_chats d1 =
      update_first (am_chatId req) (push_message (message_id doc))
                   (db_chats (db sample_world)) /\
    populateDocument sample_env (chat_id c0) d1 = (Returned populated, db (snd run)).
Proof.
  intros req run r.
  apply (@addMessage_success_broadcast sample_env req sample_world (snd run) r);
    reflexivity.
Defined.

(** Against C3 as stated: the newMessage event of a successful add-message
    on the chat of alice and bob was sent to clients 7 and 8; client 7 joined
    no room at all, so the event was not confined to the subscribers of that
    chat's room. *)
Lemma newMessage_reaches_unsubscribed_client :
  let req := mkAddMessageRequest (chat_id chat_ab) (JStr "hi") (JStr "alice") JUndefined in
  let run := addMessageToChatRoute sample_env req sample_world in
  exists r e,
    isAddMessageRequestValid sample_env req = true /\
    fst run = Returned r /\ status r = 200 /\
    emitted (socket (snd run)) = [e] /\
    update_type (payload e) = NewMessage /\
    recipients e = [7; 8] /\
    ~ scoped_to (socket (snd run)) (chat_id chat_ab) e.
Proof.
  intros req run. eexists; eexists.
  split; [reflexivity|]. split; [reflexivity|]. split; [reflexivity|].
  split; [reflexivity|]. split; [reflexivity|]. split; [reflexivity|].
  intros Hscoped. destruct (Hscoped 7) as (c & Hin & Hid & Hroom).
  - left; reflexivity.
  - simpl in Hin. destruct Hin as [<- | [<- | []]].
    + destruct Hroom.
    + discriminate Hid.
Qed.

(** A known and an unknown sender post to a chat that does not exist. *)
Lemma addMessage_unknown_chat_witness :
  let req := mkAddMessageRequest "65f0000000000000000000c9" (JStr "hi") (JStr "alice")
                                 JUndefined in
  let run := addMessageToChatRoute sample_env req sample_world in
  (exists b, fst run = Returned (mkHttp 500 b)) /\
  socket (snd run) = socket sample_world /\
  db_chats (db (snd run)) = db_chats (db sample_world) /\
  (calm 3 (db sample_world) ->
   fst run = Returned (mkHttp 500 (JsonError "Chat not found")) /\
   exists doc,
     db_messages (db (snd run)) = db_messages (db sample_world) ++ [doc] /\
     msgFrom (message_data doc) = "alice").
Proof.
  intros req run.
  apply (@addMessage_unknown_chat sample_env req sample_world); reflexivity.
Defined.

(** Against C1 as stated: a valid request from the known sender alice for a
    chat identifier that is not in the store is answered 500, not 404; so is
    the same request from an unknown sender. *)
Lemma addMessage_unknown_chat_is_500 :
  let known := mkAddMessageRequest "65f0000000000000000000c9" (JStr "hi") (JStr "alice")
                                   JUndefined in
  let unknown := mkAddMessageRequest "65f0000000000000000000c9" (JStr "hi") (JStr "zed")
                                     JUndefined in
  isAddMessageRequestValid sample_env known = true /\
  isAddMessageRequestValid sample_env unknown = true /\
  find (has_id "65f0000000000000000000c9") (db_chats (db sample_world)) = None /\
  fst (addMessageToChatRoute sample_env known sample_world)
    = Returned (mkHttp 500 (JsonError "Chat not found")) /\
  fst (addMessageToChatRoute sample_env unknown sample_world)
    = Returned (mkHttp 500 (JsonError "Message creation failed or ID missing")) /\
  500 <> 404.
Proof.
  repeat split; try reflexivity. discriminate.
Qed.

(** * Further properties of the services and handlers *)

(** ** Failures never escape *)

Lemma try_catch_ret S A (m : Async S A) (a : A) (s : S) :
  exists r, fst (try_catch m (ret a) s) = Returned r.
Proof.
  unfold try_catch, ret. destruct (m s) as [[x|] s']; simpl; eauto.
Qed.

(** X1: no service ever rejects: whatever the store holds and whichever
    store calls fail, each of the six services resolves, with a document or
    with an error object. *)
Theorem services_never_reject :
  forall d : Db,
    (forall p, exists r, fst (saveChat p d) = Returned r) /\
    (forall m, exists r, fst (createMessage m d) = Returned r) /\
    (forall chatId messageId, exists r, fst (addMessageToChat chatId messageId d) = Returned r) /\
    (forall chatId, exists r, fst (getChat chatId d) = Returned r) /\
    (forall usernames, exists r, fst (getChatsByParticipants usernames d) = Returned r) /\
    (forall chatId userId, exists r, fst (addParticipantToChat chatId userId d) = Returned r).
Proof.
  intros d. repeat split; intros; apply try_catch_ret.
Qed.

(** Case analysis on an innermost scrutinee of the goal. *)
Ltac split_scrutinee :=
  match goal with
  | |- context [match ?x with _ => _ end] =>
      lazymatch x with
      | context [match _ with _ => _ end] => fail
      | _ => destruct x
      end
  end.

Section Responses.

Variable E : Env.

(** X2: the get-chat, listing and add-participant handlers always answer,
    and only with these status codes: get-chat 200, 404 or 500; the listing
    200 or 500; add-participant 200, 400 or 500.  The add-message handler
    answers 200, 400 or 500 whenever the date field of the request is absent
    or a JSON primitive (its validator converts the field with [new Date]
    outside the handler's [try], and the conversion of an object or array
    may throw, which [new_Date] does not describe).  The create-chat handler
    answers 201, 400 or 500 unless its validator throws, in which case it
    sends no response and leaves the state untouched. *)
Theorem handlers_status_codes :
  forall w : World,
    (forall req, json_primitive (body_msgDateTime req) = true ->
                 exists r, fst (addMessageToChatRoute E req w) = Returned r /\
                           (status r = 200 \/ status r = 400 \/ status r = 500)) /\
    (forall req, exists r, fst (getChatRoute E req w) = Returned r /\
                           (status r = 200 \/ status r = 404 \/ status r = 500)) /\
    (forall req, exists r, fst (getChatsByUserRoute E req w) = Returned r /\
                           (status r = 200 \/ status r = 500)) /\
    (forall req, exists r, fst (addParticipantToChatRoute E req w) = Returned r /\
                           (status r = 200 \/ status r = 400 \/ status r = 500)) /\
    (forall req,
        (isCreateChatRequestValid E req = Thrown /\
         createChatRoute E req w = (Thrown, w)) \/
        (exists r, fst (createChatRoute E req w) = Returned r /\
                   (status r = 201 \/ status r = 400 \/ status r = 500))).
Proof.
  intros w. split; [|split; [|split; [|split]]]; intros req.
  - intros _. unfold addMessageToChatRoute.
    destruct (isAddMessageRequestValid E req); cbn [negb];
      [|simpl; eauto 6].
    unfold try_catch, bind, now, ret, socket_emit.
    repeat split_scrutinee; simpl; eauto 6.
  - unfold getChatRoute, try_catch, bind, ret.
    repeat split_scrutinee; simpl; eauto 6.
  - unfold getChatsByUserRoute, try_catch, bind, ret, of_outcome.
    repeat split_scrutinee; simpl; eauto 6.
  - unfold addParticipantToChatRoute.
    destruct (isAddParticipantRequestValid E req); cbn [negb];
      [|simpl; eauto 6].
    unfold try_catch, bind, ret.
    repeat split_scrutinee; simpl; eauto 6.
  - unfold createChatRoute, of_outcome. unfold bind at 1.
    destruct (isCreateChatRequestValid E req) as [[|]|]; cbv beta iota; cbn [negb].
    + right. unfold try_catch, bind, ret, socket_emit.
      repeat split_scrutinee; simpl; eauto 6.
    + right. simpl. eauto 6.
    + left. split; reflexivity.
Qed.

End Responses.

(** A dated message from alice. *)
Lemma handlers_status_codes_witness :
  let req := mkAddMessageRequest (chat_id chat_ab) (JStr "hi") (JStr "alice")
                                 (JStr "2025-01-01T00:00:00.000Z") in
  exists r, fst (addMessageToChatRoute sample_env req sample_world) = Returned r /\
            (status r = 200 \/ status r = 400 \/ status r = 500).
Proof.
  intros req.
  apply (proj1 (handlers_status_codes sample_env sample_world) req). reflexivity.
Defined.

(** ** The create-chat validator *)

Lemma every_prefix_throws A (f : A -> Outcome bool) (before after : list A) (x : A) :
  every f before = Returned true ->
  f x = Thrown ->
  every f (before ++ x :: after) = Thrown.
Proof.
  intros Hbefore Hx. induction before as [|b before IH]; simpl in *.
  - rewrite Hx. reflexivity.
  - destruct (f b) as [[|]|]; try discriminate. apply IH. exact Hbefore.
Qed.

Lemma every_true_Forall A (f : A -> Outcome bool) (xs : list A) :
  every f xs = Returned true -> Forall (fun x => f x = Returned true) xs.
Proof.
  induction xs as [|x xs IH]; simpl; intros H; [constructor|].
  destruct (f x) as [[|]|] eqn:Hx; try discriminate.
  constructor; [exact Hx | apply IH; exact H].
Qed.

Lemma forallb_is_string_str ps :
  forallb is_string ps = true -> map JStr (map str ps) = ps.
Proof.
  induction ps as [|p ps IH]; simpl; intros H; [reflexivity|].
  apply andb_true_iff in H as [Hp H]. rewrite (IH H).
  destruct p; try discriminate. reflexivity.
Qed.

Section CreateChatValidation.

Variable E : Env.

(** X3: a create-chat request with at least two participants whose seed
    list holds a [null] after zero or more well-formed seeds makes the
    validator throw; the validator runs outside the handler's [try], so the
    handler rejects without sending any response and without touching the
    state. *)
Theorem createChat_null_seed_unanswered :
  forall (req : CreateChatRequest) (w : World)
         (ps before after : list JsValue),
    body_participants req = JArr ps ->
    2 <= List.length ps ->
    body_messages req = JArr (before ++ JNull :: after) ->
    every (isSeedMessageValid E) before = Returned true ->
    createChatRoute E req w = (Thrown, w).
Proof.
  intros req w ps before after Hps Hlen Hms Hbefore.
  unfold createChatRoute, isCreateChatRequestValid. rewrite Hps, Hms.
  destruct (Nat.ltb (List.length ps) 2) eqn:Hlt.
  { apply Nat.ltb_lt in Hlt. lia. }
  cbn [truthy negb].
  rewrite (every_prefix_throws (isSeedMessageValid E) before after JNull Hbefore eq_refl).
  reflexivity.
Qed.

(** X4: a request the create-chat validator accepts has a list of at least
    two participants, all of them strings, which the payload handed to
    [saveChat] reproduces exactly; and when its messages field is a list,
    the payload has one seed per element, with the element's [msg] and
    [msgFrom] strings, marked direct. *)
Theorem createChat_valid_payload :
  forall req : CreateChatRequest,
    isCreateChatRequestValid E req = Returned true ->
    exists ps,
      body_participants req = JArr ps /\ 2 <= List.length ps /\
      map JStr (payload_participants (payload_of E req)) = ps /\
      forall ms, body_messages req = JArr ms ->
        exists seeds,
          payload_messages (payload_of E req) = Some seeds /\
          Forall2 (fun m seed =>
                     js_get m "msg" = Returned (JStr (msg seed)) /\
                     js_get m "msgFrom" = Returned (JStr (msgFrom seed)) /\
                     msgType seed = Direct)
                  ms seeds.
Proof.
  intros req. unfold isCreateChatRequestValid, payload_of.
  destruct (body_participants req) as [| | | | |ps|]; try discriminate.
  destruct (Nat.ltb (List.length ps) 2) eqn:Hlt; [discriminate|].
  apply Nat.ltb_ge in Hlt. intros Hvalid.
  assert (Hstrings : forallb is_string ps = true).
  { destruct (forallb is_string ps); [reflexivity|].
    destruct (if negb (truthy (body_messages req)) then _ else _) as [b|];
      simpl in Hvalid; discriminate. }
  exists ps. split; [reflexivity|]. split; [exact Hlt|].
  split; [apply forallb_is_string_str; exact Hstrings|].
  intros ms Hms. rewrite Hms in *. cbn [truthy negb] in Hvalid.
  exists (map (seed_of E) ms). split; [reflexivity|].
  rewrite Hstrings in Hvalid.
  destruct (every (isSeedMessageValid E) ms) as [[|]|] eqn:Hevery; try discriminate.
  apply every_true_Forall in Hevery. clear Hvalid Hms.
  induction Hevery as [|m ms Hm _ IH]; simpl; constructor; [|exact IH].
  unfold isSeedMessageValid in Hm. unfold seed_of. simpl.
  destruct (js_get m "msg") as [vmsg|]; [|discriminate].
  destruct (js_get m "msgFrom") as [vfrom|]; [|discriminate].
  destruct (js_get m "msgDateTime") as [vdate|]; [|discriminate].
  inversion Hm as [Hb]. apply andb_true_iff in Hb as [Hb _].
  apply andb_true_iff in Hb as [H1 H2].
  destruct vmsg; try discriminate. destruct vfrom; try discriminate.
  repeat split.
Qed.

End CreateChatValidation.

(** Two participants, one well-formed seed, then a [null]. *)
Lemma createChat_null_seed_unanswered_witness :
  createChatRoute sample_env
    (mkCreateChatRequest
       (JArr [JStr "alice"; JStr "bob"])
       (JArr [JObj [("msg", JStr "hi"); ("msgFrom", JStr "alice")]; JNull]))
    sample_world
  = (Thrown, sample_world).
Proof.
  apply (@createChat_null_seed_unanswered sample_env
           (mkCreateChatRequest
              (JArr [JStr "alice"; JStr "bob"])
              (JArr [JObj [("msg", JStr "hi"); ("msgFrom", JStr "alice")]; JNull]))
           sample_world
           [JStr "alice"; JStr "bob"]
           [JObj [("msg", JStr "hi"); ("msgFrom", JStr "alice")]] []).
  - reflexivity.
  - simpl; lia.
  - reflexivity.
  - reflexivity.
Defined.

(** A request with two participants and one dated seed. *)
Lemma createChat_valid_payload_witness :
  let req := mkCreateChatRequest
               (JArr [JStr "alice"; JStr "bob"])
               (JArr [JObj [("msg", JStr "hi"); ("msgFrom", JStr "alice");
                            ("msgDateTime", JStr "2025-01-01T00:00:00.000Z")]]) in
  exists ps,
    body_participants req = JArr ps /\ 2 <= List.length ps /\
    map JStr (payload_participants (payload_of sample_env req)) = ps /\
    forall ms, body_messages req = JArr ms ->
      exists seeds,
        payload_messages (payload_of sample_env req) = Some seeds /\
        Forall2 (fun m seed =>
                   js_get m "msg" = Returned (JStr (msg seed)) /\
                   js_get m "msgFrom" = Returned (JStr (msgFrom seed)) /\
                   msgType seed = Direct)
                ms seeds.
Proof.
  intros req. apply (@createChat_valid_payload sample_env req). reflexivity.
Defined.

(** ** Reading one chat *)

Lemma ChatModel_findById_spec id d o d' :
  ChatModel_findById id d = (o, d') ->
  same_data d d' /\ calls d' = calls d ++ [ChatFindById id] /\
  d' = after_call (ChatFindById id) d /\
  ((o = Thrown /\ exists fs, faults d = true :: fs) \/
   (o = Returned (find (has_id id) (db_chats d)) /\
    forall fs, faults d <> true :: fs)).
Proof.
  unfold ChatModel_findById, bind, after_call.
  destruct (store_call (ChatFindById id) d) as [o1 d1] eqn:Hc.
  pose proof (store_call_spec _ _ Hc) as (Hd & Hl & _ & Hthrow).
  destruct o1 as [[]|]; intros H; inversion H; subst; clear H; simpl;
    (split; [exact Hd|]); (split; [exact Hl|]); (split; [reflexivity|]).
  - right. destruct Hd as (_ & _ & -> & _). split; [reflexivity|].
    intros fs Hfs. assert (Hcontra : Returned tt = @Thrown unit) by (apply Hthrow; eauto).
    discriminate.
  - left. split; [reflexivity | apply Hthrow; reflexivity].
Qed.

(** What one call of [getChat] can do. *)
Lemma getChat_spec id d o d' :
  getChat id d = (o, d') ->
  same_data d d' /\ d' = after_call (ChatFindById id) d /\
  ((o = Returned (ErrorObj "Failed to get chat") /\ exists fs, faults d = true :: fs) \/
   (o = Returned (ErrorObj "Chat not found") /\ find (has_id id) (db_chats d) = None /\
    forall fs, faults d <> true :: fs) \/
   (exists c, o = Returned (Doc c) /\ find (has_id id) (db_chats d) = Some c /\
              forall fs, faults d <> true :: fs)).
Proof.
  unfold getChat, try_catch, bind, ret.
  destruct (ChatModel_findById id d) as [o1 d1] eqn:H1.
  apply ChatModel_findById_spec in H1 as (Hd & _ & Hafter & [(-> & Hfs) | (-> & Hnf)]).
  - intros H; inversion H; subst; clear H. tauto.
  - destruct (find (has_id id) (db_chats d)) as [c|] eqn:Hfind;
      intros H; inversion H; subst; clear H;
      (split; [exact Hd|]); (split; [reflexivity|]).
    + right; right. eauto.
    + right; left. tauto.
Qed.

(** X5: the two read services leave the collections as they were, whatever
    the outcome and whichever store calls fail. *)
Theorem read_services_change_nothing :
  forall d : Db,
    (forall chatId, same_data d (snd (getChat chatId d))) /\
    (forall usernames, same_data d (snd (getChatsByParticipants usernames d))).
Proof.
  intros d. split.
  - intros chatId. destruct (getChat chatId d) as [o d'] eqn:H.
    apply getChat_spec in H. simpl. tauto.
  - intros usernames. unfold getChatsByParticipants, try_catch, bind, ret.
    destruct (UserModel_find usernames d) as [o1 d1] eqn:H1.
    apply UserModel_find_spec in H1 as (Hd1 & _ & [-> | ->]); [exact Hd1|].
    unfold ChatModel_find_all, bind.
    destruct (store_call _ d1) as [o2 d2] eqn:H2.
    apply store_call_spec in H2 as (Hd2 & _).
    destruct o2 as [[]|]; simpl; eapply same_data_trans; eauto.
Qed.

Section GetChat.

Variable E : Env.

(** X6: for a chat identifier that passes the ObjectId test (the handler
    itself does not test it, and the store refuses to look up one that does
    not), the get-chat handler answers 404 both when no chat has the
    identifier ("Chat not found") and when the lookup itself fails ("Failed
    to get chat", even if the chat exists); in either case the lookup is the
    only store call made, no hydration is attempted, and nothing changes. *)
Theorem getChatRoute_error_is_404 :
  forall (req : ChatIdRequest) (w : World),
    isValidObjectId E (ci_chatId req) = true ->
    find (has_id (ci_chatId req)) (db_chats (db w)) = None \/
    (exists fs, faults (db w) = true :: fs) ->
    exists e,
      getChatRoute E req w =
        (Returned (mkHttp 404 (JsonError e)),
         mkWorld (after_call (ChatFindById (ci_chatId req)) (db w)) (socket w) (clock w)) /\
      ((exists fs, faults (db w) = true :: fs) -> e = "Failed to get chat") /\
      ((forall fs, faults (db w) <> true :: fs) -> e = "Chat not found").
Proof.
  intros req w _ Hcase. unfold getChatRoute, try_catch. unfold bind at 1.
  destruct (getChat (ci_chatId req) (db w)) as [o d1] eqn:Hget.
  rewrite (on_db_run _ w Hget).
  apply getChat_spec in Hget
    as (_ & -> & [(-> & Hfs) | [(-> & Hnone & Hnf) | (c & -> & Hfind & Hnf)]]).
  - eexists. split; [reflexivity|]. split; [reflexivity|].
    intros Hnf. destruct Hfs as [fs Hfs]. destruct (Hnf fs Hfs).
  - eexists. split; [reflexivity|]. split; [|reflexivity].
    intros [fs Hfs]. destruct (Hnf fs Hfs).
  - destruct Hcase as [Hnone | [fs Hfs]]; [congruence|].
    destruct (Hnf fs Hfs).
Qed.

(** X7: when the lookup succeeds and finds the chat, the get-chat handler
    hydrates the chat under the requested identifier and answers 200 with
    whatever hydration resolved with (a hydrated chat, an error object or
    null alike); it answers 500 "Failed to retrieve chat" only when the
    hydration call rejects. *)
Theorem getChatRoute_found :
  forall (req : ChatIdRequest) (w : World) (c : Chat),
    calm 1 (db w) ->
    find (has_id (ci_chatId req)) (db_chats (db w)) = Some c ->
    getChatRoute E req w =
      (Returned
         (match fst (populateDocument E (ci_chatId req)
                       (after_call (ChatFindById (ci_chatId req)) (db w))) with
          | Returned populated => mkHttp 200 (Json populated)
          | Thrown => mkHttp 500 (JsonError "Failed to retrieve chat")
          end),
       mkWorld (snd (populateDocument E (ci_chatId req)
                       (after_call (ChatFindById (ci_chatId req)) (db w))))
               (socket w) (clock w)).
Proof.
  intros req w c Hcalm Hfind.
  assert (Hid : chat_id c = ci_chatId req).
  { apply find_has_id in Hfind. apply String.eqb_eq. exact Hfind. }
  unfold getChatRoute, try_catch. unfold bind at 1.
  destruct (getChat (ci_chatId req) (db w)) as [o d1] eqn:Hget.
  rewrite (on_db_run _ w Hget).
  apply getChat_spec in Hget
    as (_ & -> & [(_ & fs & Hfs) | [(_ & Hnone & _) | (c' & -> & Hfind' & _)]]).
  - unfold calm in Hcalm. rewrite Hfs in Hcalm. discriminate.
  - congruence.
  - assert (c' = c) by congruence. subst c'. rewrite Hid.
    unfold bind, on_db, ret. simpl db.
    destruct (populateDocument E (ci_chatId req) _) as [[populated|] d2]; reflexivity.
Qed.

End GetChat.

(** The lookup of a chat that is not stored, in a calm store. *)
Lemma getChatRoute_error_is_404_witness :
  exists e,
    getChatRoute sample_env (mkChatIdRequest "65f0000000000000000000c9") sample_world =
      (Returned (mkHttp 404 (JsonError e)),
       mkWorld (after_call (ChatFindById "65f0000000000000000000c9") (db sample_world))
               (socket sample_world) (clock sample_world)) /\
    ((exists fs, faults (db sample_world) = true :: fs) -> e = "Failed to get chat") /\
    ((forall fs, faults (db sample_world) <> true :: fs) -> e = "Chat not found").
Proof.
  apply (@getChatRoute_error_is_404 sample_env
           (mkChatIdRequest "65f0000000000000000000c9") sample_world).
  - reflexivity.
  - left; reflexivity.
Defined.

(** The chat of alice and bob is found and hydrated. *)
Lemma getChatRoute_found_witness :
  getChatRoute sample_env (mkChatIdRequest (chat_id chat_ab)) sample_world =
    (Returned (mkHttp 200 (Json (PopChat (hydrate sample_db chat_ab)))),
     mkWorld (mkDb (db_users sample_db) [] (db_chats sample_db) 16 []
                   [ChatFindById (chat_id chat_ab); Populate (chat_id chat_ab)])
             (socket sample_world) (clock sample_world)).
Proof.
  apply (@getChatRoute_found sample_env (mkChatIdRequest (chat_id chat_ab))
           sample_world chat_ab); reflexivity.
Defined.

(** ** Updates of one chat *)

Lemma push_message_keeps_id mid : keeps_id (push_message mid).
Proof. intros c; reflexivity. Qed.

Lemma addToSet_keeps_id uid : keeps_id (addToSet uid).
Proof. intros c; reflexivity. Qed.

Lemma has_id_keeps f id c : keeps_id f -> has_id id (f c) = has_id id c.
Proof. intros Hf. unfold has_id. rewrite Hf. reflexivity. Qed.

Lemma update_first_ids id f cs :
  keeps_id f -> map chat_id (update_first id f cs) = map chat_id cs.
Proof.
  intros Hf. induction cs as [|c cs IH]; simpl; [reflexivity|].
  destruct (has_id id c); simpl; [rewrite Hf | rewrite IH]; reflexivity.
Qed.

Lemma update_first_others id f cs x :
  In x cs -> has_id id x = false -> In x (update_first id f cs).
Proof.
  intros Hin Hx. induction cs as [|c cs IH]; simpl in *; [exact Hin|].
  destruct (has_id id c) eqn:Hc.
  - destruct Hin as [-> | Hin]; [congruence | right; exact Hin].
  - destruct Hin as [-> | Hin]; [left; reflexivity | right; apply IH; exact Hin].
Qed.

Lemma update_first_commute i j f g cs :
  keeps_id f -> keeps_id g -> (forall c, f (g c) = g (f c)) ->
  update_first i f (update_first j g cs) = update_first j g (update_first i f cs).
Proof.
  intros Hf Hg Hfg. induction cs as [|c cs IH]; simpl; [reflexivity|].
  destruct (has_id j c) eqn:Hj; destruct (has_id i c) eqn:Hi; simpl;
    rewrite ?(has_id_keeps _ _ Hf), ?(has_id_keeps _ _ Hg), ?Hi, ?Hj;
    try reflexivity.
  - rewrite Hfg. reflexivity.
  - rewrite IH. reflexivity.
Qed.

Lemma find_after_update i j f cs c :
  keeps_id f ->
  find (has_id j) cs = Some c ->
  exists c', find (has_id j) (update_first i f cs) = Some c'.
Proof.
  intros Hf. induction cs as [|x cs IH]; simpl; [discriminate|].
  destruct (has_id i x) eqn:Hi; simpl.
  - rewrite (has_id_keeps _ _ Hf). destruct (has_id j x); eauto.
  - destruct (has_id j x); eauto.
Qed.

Lemma calm_no_fault n d : calm (S n) d -> forall fs, faults d <> true :: fs.
Proof. unfold calm. intros H fs Hfs. rewrite Hfs in H. discriminate. Qed.

Lemma findByIdAndUpdate_run id f d c n :
  calm (S n) d ->
  find (has_id id) (db_chats d) = Some c ->
  exists d',
    ChatModel_findByIdAndUpdate id f d = (Returned (Some (f c)), d') /\
    db_chats d' = update_first id f (db_chats d) /\
    db_users d' = db_users d /\ db_messages d' = db_messages d /\ calm n d'.
Proof.
  intros Hcalm Hfind.
  destruct (store_call_calm (ChatFindByIdAndUpdate id) Hcalm)
    as (d1 & Hc & (Hu & Hm & Hch & _) & _ & _ & Hn).
  unfold ChatModel_findByIdAndUpdate, bind. rewrite Hc, Hch, Hfind.
  eexists. split; [reflexivity|]. simpl. repeat split; assumption.
Qed.

(** X8: a successful [addMessageToChat] appends the given identifier at the
    end of the message list of the first chat with the target identifier and
    changes nothing else: that chat keeps its identifier and participants,
    every chat with another identifier is still stored, the identifiers of
    the stored chats are the same in the same order, and users and messages
    are untouched.  The message identifier is appended as given. *)
Theorem addMessageToChat_appends :
  forall (chatId messageId : ObjectId) (d d' : Db) (c : Chat),
    addMessageToChat chatId messageId d = (Returned (Doc c), d') ->
    exists c0,
      find (has_id chatId) (db_chats d) = Some c0 /\
      chat_id c = chat_id c0 /\ participants c = participants c0 /\
      messages c = messages c0 ++ [messageId] /\
      find (has_id chatId) (db_chats d') = Some c /\
      map chat_id (db_chats d') = map chat_id (db_chats d) /\
      (forall x, In x (db_chats d) -> has_id chatId x = false -> In x (db_chats d')) /\
      db_users d' = db_users d /\ db_messages d' = db_messages d.
Proof.
  intros chatId messageId d d' c H.
  apply addMessageToChat_spec in H
    as (Hu & Hm & [(e & He & _) | (c0 & Hc & Hfind & Hch)]); [discriminate|].
  inversion Hc; subst c; clear Hc. exists c0. rewrite Hch.
  split; [exact Hfind|]. split; [reflexivity|]. split; [reflexivity|].
  split; [reflexivity|].
  split; [apply find_update_first; [exact Hfind | exact (find_has_id _ _ Hfind)]|].
  split; [apply update_first_ids, push_message_keeps_id|].
  split; [intros x Hin Hx; apply update_first_others; assumption|].
  split; assumption.
Qed.

(** A message identifier is appended to the chat of alice and bob. *)
Lemma addMessageToChat_appends_witness :
  exists c0,
    find (has_id (chat_id chat_ab)) (db_chats sample_db) = Some c0 /\
    chat_id (push_message "m1" chat_ab) = chat_id c0 /\
    participants (push_message "m1" chat_ab) = participants c0 /\
    messages (push_message "m1" chat_ab) = messages c0 ++ ["m1"] /\
    find (has_id (chat_id chat_ab))
         (db_chats (snd (addMessageToChat (chat_id chat_ab) "m1" sample_db)))
      = Some (push_message "m1" chat_ab) /\
    map chat_id (db_chats (snd (addMessageToChat (chat_id chat_ab) "m1" sample_db)))
      = map chat_id (db_chats sample_db) /\
    (forall x, In x (db_chats sample_db) -> has_id (chat_id chat_ab) x = false ->
               In x (db_chats (snd (addMessageToChat (chat_id chat_ab) "m1" sample_db)))) /\
    db_users (snd (addMessageToChat (chat_id chat_ab) "m1" sample_db)) = db_users sample_db /\
    db_messages (snd (addMessageToChat (chat_id chat_ab) "m1" sample_db))
      = db_messages sample_db.
Proof.
  apply (@addMessageToChat_appends (chat_id chat_ab) "m1" sample_db
           (snd (addMessageToChat (chat_id chat_ab) "m1" sample_db))
           (push_message "m1" chat_ab)).
  reflexivity.
Defined.

(** X9: a successful [addParticipantToChat] keeps the participants the chat
    had, in their order, and adds the given identifier at the end only if it
    was not there: a participant list without duplicates stays without
    duplicates, the list grows by at most one, and the chat's messages and
    identifier are untouched.  A chat that already had the participant is
    returned unchanged. *)
Theorem addParticipantToChat_keeps_set :
  forall (chatId userId : ObjectId) (d d' : Db) (c : Chat),
    addParticipantToChat chatId userId d = (Returned (Doc c), d') ->
    exists c0,
      find (has_id chatId) (db_chats d) = Some c0 /\
      chat_id c = chat_id c0 /\ messages c = messages c0 /\
      (exists tail_, participants c = participants c0 ++ tail_ /\
                     (tail_ = [] \/ tail_ = [userId])) /\
      (NoDup (participants c0) -> NoDup (participants c)) /\
      (In userId (participants c0) -> c = c0) /\
      map chat_id (db_chats d') = map chat_id (db_chats d).
Proof.
  intros chatId userId d d' c H.
  apply addParticipantToChat_success in H as (c0 & Hfind & -> & Hch).
  exists c0. split; [exact Hfind|]. split; [reflexivity|]. split; [reflexivity|].
  unfold addToSet; simpl.
  destruct (mem userId (participants c0)) eqn:Hmem.
  - split; [exists []; rewrite app_nil_r; tauto|].
    split; [tauto|]. split; [intros _; destruct c0; reflexivity|].
    rewrite Hch. apply update_first_ids, addToSet_keeps_id.
  - assert (Hnotin : ~ In userId (participants c0)).
    { intros Hin. apply mem_In in Hin. congruence. }
    split; [exists [userId]; tauto|].
    split.
    { intros Hnd. apply NoDup_app; [exact Hnd | repeat constructor; intros [] |].
      intros x Hx [<- | []]. exact (Hnotin Hx). }
    split; [intros Hin; destruct (Hnotin Hin)|].
    rewrite Hch. apply update_first_ids, addToSet_keeps_id.
Qed.

(** Carol joins the chat of alice and bob. *)
Lemma addParticipantToChat_keeps_set_witness :
  let c := addToSet (user_id carol) chat_ab in
  let d' := snd (addParticipantToChat (chat_id chat_ab) (user_id carol) sample_db) in
  exists c0,
    find (has_id (chat_id chat_ab)) (db_chats sample_db) = Some c0 /\
    chat_id c = chat_id c0 /\ messages c = messages c0 /\
    (exists tail_, participants c = participants c0 ++ tail_ /\
                   (tail_ = [] \/ tail_ = [user_id carol])) /\
    (NoDup (participants c0) -> NoDup (participants c)) /\
    (In (user_id carol) (participants c0) -> c = c0) /\
    map chat_id (db_chats d') = map chat_id (db_chats sample_db).
Proof.
  intros c d'.
  apply (@addParticipantToChat_keeps_set (chat_id chat_ab) (user_id carol)
           sample_db d' c).
  reflexivity.
Defined.

Lemma addMessageToChat_run chatId mid d c n :
  calm (S n) d ->
  find (has_id chatId) (db_chats d) = Some c ->
  exists d',
    addMessageToChat chatId mid d = (Returned (Doc (push_message mid c)), d') /\
    db_chats d' = update_first chatId (push_message mid) (db_chats d) /\
    db_users d' = db_users d /\ db_messages d' = db_messages d /\ calm n d'.
Proof.
  intros Hcalm Hfind.
  destruct (@findByIdAndUpdate_run chatId (push_message mid) d c n Hcalm Hfind)
    as (d' & Hrun & Hrest).
  exists d'. unfold addMessageToChat, try_catch, bind, ret. rewrite Hrun. tauto.
Qed.

Lemma addParticipantToChat_run chatId uid d c n :
  calm (S n) d ->
  find (has_id chatId) (db_chats d) = Some c ->
  exists d',
    addParticipantToChat chatId uid d = (Returned (Doc (addToSet uid c)), d') /\
    db_chats d' = update_first chatId (addToSet uid) (db_chats d) /\
    db_users d' = db_users d /\ db_messages d' = db_messages d /\ calm n d'.
Proof.
  intros Hcalm Hfind.
  destruct (@findByIdAndUpdate_run chatId (addToSet uid) d c n Hcalm Hfind)
    as (d' & Hrun & Hrest).
  exists d'. unfold addParticipantToChat, try_catch, bind, ret. rewrite Hrun. tauto.
Qed.

(** X10: appending a message to one stored chat and adding a participant to
    a stored chat (the same one or another) commute: when the two store calls
    succeed, both orders succeed and leave the same chats in the store. *)
Theorem addMessage_addParticipant_commute :
  forall (chatA chatB messageId userId : ObjectId) (d : Db) (cA cB : Chat),
    calm 2 d ->
    find (has_id chatA) (db_chats d) = Some cA ->
    find (has_id chatB) (db_chats d) = Some cB ->
    (exists c1 c2,
        fst (addMessageToChat chatA messageId d) = Returned (Doc c1) /\
        fst (addParticipantToChat chatB userId (snd (addMessageToChat chatA messageId d)))
          = Returned (Doc c2)) /\
    (exists c1 c2,
        fst (addParticipantToChat chatB userId d) = Returned (Doc c1) /\
        fst (addMessageToChat chatA messageId (snd (addParticipantToChat chatB userId d)))
          = Returned (Doc c2)) /\
    db_chats (snd (addParticipantToChat chatB userId
                     (snd (addMessageToChat chatA messageId d))))
    = db_chats (snd (addMessageToChat chatA messageId
                       (snd (addParticipantToChat chatB userId d)))).
Proof.
  intros chatA chatB mid uid d cA cB Hcalm HA HB.
  destruct (@addMessageToChat_run chatA mid d cA 1 Hcalm HA) as (d1 & Hm1 & Hch1 & _ & _ & Hn1).
  destruct (@find_after_update chatA chatB (push_message mid) (db_chats d) cB
              (push_message_keeps_id mid) HB) as (cB' & HB').
  rewrite <- Hch1 in HB'.
  destruct (@addParticipantToChat_run chatB uid d1 cB' 0 Hn1 HB') as (d2 & Hp2 & Hch2 & _).
  destruct (@addParticipantToChat_run chatB uid d cB 1 Hcalm HB) as (e1 & Hp1 & Hce1 & _ & _ & Hne1).
  destruct (@find_after_update chatB chatA (addToSet uid) (db_chats d) cA
              (addToSet_keeps_id uid) HA) as (cA' & HA').
  rewrite <- Hce1 in HA'.
  destruct (@addMessageToChat_run chatA mid e1 cA' 0 Hne1 HA') as (e2 & Hm2 & Hce2 & _).
  rewrite Hm1, Hp1. simpl. rewrite Hp2, Hm2. simpl.
  split; [eauto|]. split; [eauto|].
  rewrite Hch2, Hch1, Hce2, Hce1.
  apply update_first_commute;
    [apply addToSet_keeps_id | apply push_message_keeps_id | reflexivity].
Qed.

(** A message for the chat of alice and bob, a participant for the chat of
    bob and carol. *)
Lemma addMessage_addParticipant_commute_witness :
  db_chats (snd (addParticipantToChat (chat_id chat_bc) (user_id alice)
                   (snd (addMessageToChat (chat_id chat_ab) "m1" sample_db))))
  = db_chats (snd (addMessageToChat (chat_id chat_ab) "m1"
                     (snd (addParticipantToChat (chat_id chat_bc) (user_id alice)
                             sample_db)))).
Proof.
  apply (@addMessage_addParticipant_commute (chat_id chat_ab) (chat_id chat_bc) "m1"
           (user_id alice) sample_db chat_ab chat_bc); reflexivity.
Defined.

(** ** Errors of createMessage *)

(** X11: [createMessage] saves nothing when it reports an error, and its
    error is "User not found" or "Failed to create message".  When the
    lookup succeeds and no user has the sender's username, the error is
    "User not found" and the lookup is the only store call made: the save is
    never attempted. *)
Theorem createMessage_error_saves_nothing :
  forall (m : Message) (d d' : Db) (e : string),
    createMessage m d = (Returned (ErrorObj e), d') ->
    db_messages d' = db_messages d /\ db_users d' = db_users d /\
    db_chats d' = db_chats d /\
    (e = "User not found" \/ e = "Failed to create message") /\
    (calm 1 d -> user_named (msgFrom m) d = None ->
     e = "User not found" /\ calls d' = calls d ++ [UserFindOne (msgFrom m)]).
Proof.
  intros m d d' e. unfold createMessage, try_catch, bind, ret, UserModel_findOne, bind.
  destruct (store_call (UserFindOne (msgFrom m)) d) as [o1 d1] eqn:H1.
  pose proof (store_call_spec _ _ H1) as ((Hu & Hm & Hch & _) & Hl & _ & Hthrow).
  destruct o1 as [[]|].
  - unfold user_named. rewrite Hu.
    destruct (find _ (db_users d)) as [u|] eqn:Hfind.
    + destruct (MessageModel_save m d1) as [o2 d2] eqn:H2.
      apply MessageModel_save_spec in H2
        as (Hu2 & Hch2 & [(-> & Hm2 & _) | (doc & -> & _)]);
        intros H; inversion H; subst; clear H.
      split; [congruence|]. split; [congruence|]. split; [congruence|].
      split; [right; reflexivity|]. intros _ Hnone. discriminate Hnone.
    + intros H; inversion H; subst; clear H.
      split; [congruence|]. split; [congruence|]. split; [congruence|].
      split; [left; reflexivity|]. intros _ _. split; [reflexivity | exact Hl].
  - intros H; inversion H; subst; clear H.
    split; [exact Hm|]. split; [exact Hu|]. split; [exact Hch|].
    split; [right; reflexivity|].
    intros Hcalm _. exfalso.
    destruct (proj1 Hthrow eq_refl) as [fs Hfs].
    exact (@calm_no_fault 0 d Hcalm fs Hfs).
Qed.

(** "zed" is not a user of the sample store. *)
Lemma createMessage_error_saves_nothing_witness :
  let m := mkMessage "hi" "zed" None Direct in
  let d' := snd (createMessage m sample_db) in
  db_messages d' = db_messages sample_db /\ db_users d' = db_users sample_db /\
  db_chats d' = db_chats sample_db /\
  ("User not found" = "User not found" \/ "User not found" = "Failed to create message") /\
  (calm 1 sample_db -> user_named (msgFrom m) sample_db = None ->
   "User not found" = "User not found" /\
   calls d' = calls sample_db ++ [UserFindOne (msgFrom m)]).
Proof.
  intros m d'.
  apply (@createMessage_error_saves_nothing m sample_db d' "User not found").
  reflexivity.
Defined.

(** ** When a chat is created *)

Lemma NoDup_map_filter A B (f : A -> B) (keep : A -> bool) (l : list A) :
  NoDup (map f l) -> NoDup (map f (filter keep l)).
Proof.
  induction l as [|a l IH]; simpl; intros H; [constructor|].
  inversion H as [|x xs Hnotin Hnd]; subst.
  destruct (keep a); simpl; [constructor|]; auto.
  intros Hin. apply Hnotin. apply in_map_iff in Hin as (y & Hy & Hin).
  apply filter_In in Hin as (Hin & _). apply in_map_iff. eauto.
Qed.

Lemma users_named_incl names d : incl (map username (users_named names d)) names.
Proof.
  intros x Hx. apply in_map_iff in Hx as (u & <- & Hu).
  unfold users_named in Hu. apply filter_In in Hu as (_ & Hm).
  apply mem_In. exact Hm.
Qed.

(** With unique usernames, the user lookup returns as many users as names
    were given exactly when the names are resolvable. *)
Lemma users_named_length names d :
  NoDup (map username (db_users d)) ->
  (List.length (users_named names d) = List.length names <-> resolvable names d).
Proof.
  intros Huniq.
  assert (Hnd : NoDup (map username (users_named names d))).
  { unfold users_named. apply NoDup_map_filter. exact Huniq. }
  pose proof (users_named_incl names d) as Hincl.
  split.
  - intros Hlen.
    assert (Hle : List.length names <= List.length (map username (users_named names d))).
    { rewrite length_map. lia. }
    split.
    + eapply NoDup_incl_NoDup; eauto.
    + intros name Hin.
      pose proof (NoDup_length_incl Hnd Hle Hincl name Hin) as Hfound.
      apply in_map_iff in Hfound as (u & Hname & Hu).
      unfold users_named in Hu. apply filter_In in Hu as (Hu & _). eauto.
  - intros (Hnames & Hall).
    assert (Hincl' : incl names (map username (users_named names d))).
    { intros name Hin. destruct (Hall name Hin) as (u & Hu & <-).
      apply in_map_iff. exists u. split; [reflexivity|].
      unfold users_named. apply filter_In. split; [exact Hu|].
      apply mem_In. exact Hin. }
    pose proof (NoDup_incl_length Hnd Hincl) as H1.
    pose proof (NoDup_incl_length Hnames Hincl') as H2.
    rewrite length_map in H1, H2. lia.
Qed.

Lemma save_seeds_run (ms : list Message) (n : nat) :
  forall d, calm (List.length ms + n) d ->
  exists docs d',
    settle_all (map (fun m => MessageModel_save (as_direct m)) ms) d
      = (map (@Returned MessageDoc) docs, d') /\
    List.length docs = List.length ms /\
    db_messages d' = db_messages d ++ docs /\
    db_users d' = db_users d /\ db_chats d' = db_chats d /\ calm n d'.
Proof.
  induction ms as [|m ms IH]; intros d Hcalm.
  - exists [], d. simpl. rewrite app_nil_r. repeat split. exact Hcalm.
  - simpl in Hcalm.
    destruct (@MessageModel_save_calm (as_direct m) d (List.length ms + n) Hcalm)
      as (doc & d1 & Hrun & _ & Hm & Hu & Hch & _ & Hn).
    destruct (IH d1 Hn) as (docs & d2 & Hrun2 & Hlen & Hm2 & Hu2 & Hch2 & Hn2).
    exists (doc :: docs), d2. simpl. rewrite Hrun, Hrun2.
    split; [reflexivity|]. split; [rewrite Hlen; reflexivity|].
    rewrite Hm2, Hm, Hu2, Hu, Hch2, Hch, <- app_assoc.
    repeat split. exact Hn2.
Qed.

Lemma ChatModel_create_run ps ms d n :
  calm (S n) d ->
  exists c d',
    ChatModel_create ps ms d = (Returned c, d') /\
    participants c = ps /\ messages c = ms /\
    db_chats d' = db_chats d ++ [c].
Proof.
  intros Hcalm.
  destruct (store_call_calm (ChatCreate ps ms) Hcalm) as (d1 & Hc & (_ & _ & Hch & _) & _).
  unfold ChatModel_create, bind. rewrite Hc.
  eexists; eexists. split; [reflexivity|]. simpl. rewrite Hch. repeat split.
Qed.

Lemma resolve_and_create_run p ids d :
  calm 2 d ->
  (List.length (users_named (payload_participants p) d)
     <> List.length (payload_participants p) ->
   exists d', resolve_and_create p ids d = (Returned (ErrorObj "Some users not found"), d') /\
              db_chats d' = db_chats d /\ db_messages d' = db_messages d) /\
  (List.length (users_named (payload_participants p) d)
     = List.length (payload_participants p) ->
   exists c d', resolve_and_create p ids d = (Returned (Doc c), d') /\
                participants c = map user_id (users_named (payload_participants p) d) /\
                messages c = ids /\
                db_chats d' = db_chats d ++ [c] /\ db_messages d' = db_messages d).
Proof.
  intros Hcalm.
  destruct (@UserModel_find_calm (payload_participants p) d 1 Hcalm)
    as (d2 & Hfind & (Hu2 & Hm2 & Hch2 & _) & _ & _ & Hn2).
  unfold resolve_and_create, bind. rewrite Hfind.
  split; intros Hlen.
  - apply Nat.eqb_neq in Hlen. rewrite Hlen. cbn [negb]. unfold ret.
    exists d2. repeat split; assumption.
  - pose proof Hlen as Hlen'. apply Nat.eqb_eq in Hlen'. rewrite Hlen'. cbn [negb].
    destruct (@ChatModel_create_run
                (map user_id (users_named (payload_participants p) d)) ids d2 0 Hn2)
      as (c & d3 & Hcreate & Hps & Hms & Hch3).
    rewrite Hcreate. unfold ret.
    exists c, d3. split; [reflexivity|]. split; [exact Hps|]. split; [exact Hms|].
    split; [congruence|].
    apply ChatModel_create_spec in Hcreate as (_ & Hm3 & _). congruence.
Qed.

(** [saveChat] when none of its store calls fails. *)
Lemma saveChat_run p d :
  calm (seed_count p + 2) d ->
  (List.length (users_named (payload_participants p) d)
     <> List.length (payload_participants p) ->
   fst (saveChat p d) = Returned (ErrorObj "Some users not found") /\
   db_chats (snd (saveChat p d)) = db_chats d /\
   List.length (db_messages (snd (saveChat p d)))
     = List.length (db_messages d) + seed_count p) /\
  (List.length (users_named (payload_participants p) d)
     = List.length (payload_participants p) ->
   exists c,
     fst (saveChat p d) = Returned (Doc c) /\
     participants c = map user_id (users_named (payload_participants p) d) /\
     List.length (messages c) = seed_count p /\
     db_chats (snd (saveChat p d)) = db_chats d ++ [c] /\
     List.length (db_messages (snd (saveChat p d)))
       = List.length (db_messages d) + seed_count p).
Proof.
  intros Hcalm.
  assert (Hseeds : exists ids d1,
    saveChat p d = try_catch (resolve_and_create p ids)
                             (ret (ErrorObj "Failed to save chat")) d1 /\
    List.length ids = seed_count p /\
    List.length (db_messages d1) = List.length (db_messages d) + seed_count p /\
    db_users d1 = db_users d /\ db_chats d1 = db_chats d /\ calm 2 d1).
  { rewrite saveChat_unfold. unfold seed_count in *. unfold try_catch. unfold bind at 1.
    destruct (payload_messages p) as [ms|].
    - destruct (@save_seeds_run ms 2 d Hcalm)
        as (docs & d1 & Hrun & Hlen & Hm & Hu & Hch & Hn).
      exists (map message_id docs), d1.
      unfold bind at 1, promise_all. rewrite Hrun, collect_resolved. unfold ret at 1.
      rewrite length_map, Hm, length_app, Hlen. repeat split; assumption.
    - exists [], d. unfold ret at 1. simpl. rewrite Nat.add_0_r. repeat split.
      exact Hcalm. }
  destruct Hseeds as (ids & d1 & Hbody & Hids & Hmsgs & Hu1 & Hch1 & Hn1).
  rewrite Hbody. unfold try_catch.
  assert (Hsame : users_named (payload_participants p) d1
                  = users_named (payload_participants p) d).
  { unfold users_named. rewrite Hu1. reflexivity. }
  destruct (@resolve_and_create_run p ids d1 Hn1) as (Hbad & Hgood).
  rewrite Hsame in Hbad, Hgood.
  split; intros Hlen.
  - destruct (Hbad Hlen) as (d2 & -> & Hch2 & Hm2). simpl.
    split; [reflexivity|]. split; congruence.
  - destruct (Hgood Hlen) as (c & d2 & -> & Hps & Hms & Hch2 & Hm2). simpl.
    exists c. split; [reflexivity|]. split; [exact Hps|].
    split; [rewrite Hms; exact Hids|]. split; congruence.
Qed.

(** X12: with unique usernames in the user store and no failing store
    call, [saveChat] creates the chat exactly when the given usernames are
    resolvable (each names a stored user, none is repeated).  The new chat
    then has one participant identifier per given name, including that of
    every named user, and one message reference per seed; otherwise the
    result is the error "Some users not found" and no chat is added, so a
    repeated username is refused even though it names a stored user. *)
Theorem saveChat_creates_iff_resolvable :
  forall (p : CreateChatPayload) (d : Db),
    NoDup (map username (db_users d)) ->
    calm (seed_count p + 2) d ->
    (resolvable (payload_participants p) d ->
     exists c,
       fst (saveChat p d) = Returned (Doc c) /\
       List.length (participants c) = List.length (payload_participants p) /\
       (forall name, In name (payload_participants p) ->
                     exists u, In u (db_users d) /\ username u = name /\
                               In (user_id u) (participants c)) /\
       List.length (messages c) = seed_count p /\
       db_chats (snd (saveChat p d)) = db_chats d ++ [c]) /\
    (~ resolvable (payload_participants p) d ->
     fst (saveChat p d) = Returned (ErrorObj "Some users not found") /\
     db_chats (snd (saveChat p d)) = db_chats d).
Proof.
  intros p d Huniq Hcalm.
  destruct (saveChat_run p Hcalm) as (Hbad & Hgood).
  pose proof (users_named_length (payload_participants p) d Huniq) as Hiff.
  split.
  - intros Hres. pose proof Hres as (_ & Hall).
    destruct (Hgood (proj2 Hiff Hres)) as (c & Hrun & Hps & Hms & Hch & _).
    exists c. split; [exact Hrun|].
    split; [rewrite Hps, length_map; apply Hiff; exact Hres|].
    split; [|split; assumption].
    intros name Hin. destruct (Hall name Hin) as (u & Hu & Hname).
    exists u. split; [exact Hu|]. split; [exact Hname|].
    rewrite Hps. apply in_map. unfold users_named. apply filter_In.
    split; [exact Hu|]. apply mem_In. rewrite Hname. exact Hin.
  - intros Hnot.
    assert (Hne : List.length (users_named (payload_participants p) d)
                  <> List.length (payload_participants p)).
    { intros Hlen. apply Hnot. apply Hiff. exact Hlen. }
    destruct (Hbad Hne) as (H1 & H2 & _). tauto.
Qed.

(** Alice and carol both resolve; alice given twice does not. *)
Lemma saveChat_creates_iff_resolvable_witness :
  (exists c,
      fst (saveChat (mkPayload ["alice"; "carol"] None) sample_db) = Returned (Doc c) /\
      List.length (participants c) = 2 /\
      (forall name, In name ["alice"; "carol"] ->
                    exists u, In u (db_users sample_db) /\ username u = name /\
                              In (user_id u) (participants c)) /\
      List.length (messages c) = 0 /\
      db_chats (snd (saveChat (mkPayload ["alice"; "carol"] None) sample_db))
        = db_chats sample_db ++ [c]) /\
  (fst (saveChat (mkPayload ["alice"; "alice"] None) sample_db)
     = Returned (ErrorObj "Some users not found") /\
   db_chats (snd (saveChat (mkPayload ["alice"; "alice"] None) sample_db))
     = db_chats sample_db).
Proof.
  assert (Huniq : NoDup (map username (db_users sample_db))).
  { simpl. repeat constructor; simpl; intuition discriminate. }
  split.
  - apply (@saveChat_creates_iff_resolvable (mkPayload ["alice"; "carol"] None)
             sample_db Huniq eq_refl).
    split.
    + simpl. repeat constructor; simpl; intuition discriminate.
    + intros name [<- | [<- | []]]; [exists alice | exists carol]; simpl; tauto.
  - apply (@saveChat_creates_iff_resolvable (mkPayload ["alice"; "alice"] None)
             sample_db Huniq eq_refl).
    intros (Hnd & _). inversion Hnd as [|x xs Hnotin _]; subst.
    apply Hnotin. left; reflexivity.
Defined.

(** ** The add-message validator *)

Lemma trimStart_blank s : all_space s = true -> trimStart s = EmptyString.
Proof.
  induction s as [|a s IH]; simpl; intros H; [reflexivity|].
  apply andb_true_iff in H as [Ha Hs]. rewrite Ha. apply IH. exact Hs.
Qed.

Lemma trimStart_text s :
  all_space s = false ->
  exists a t, trimStart s = String a t /\ is_space a = false.
Proof.
  induction s as [|a s IH]; simpl; intros H; [discriminate|].
  destruct (is_space a) eqn:Ha; simpl in H; [apply IH; exact H | eauto].
Qed.

Lemma trimEnd_text a t : is_space a = false -> trimEnd (String a t) <> EmptyString.
Proof.
  intros Ha. simpl. destruct (trimEnd t); [rewrite Ha|]; discriminate.
Qed.

(** [s.trim()] is empty exactly when [s] holds white space only. *)
Lemma trim_length s : Nat.ltb 0 (String.length (trim s)) = negb (all_space s).
Proof.
  unfold trim. destruct (all_space s) eqn:Hs.
  - rewrite (trimStart_blank s Hs). reflexivity.
  - destruct (trimStart_text s Hs) as (a & t & -> & Ha).
    pose proof (@trimEnd_text a t Ha) as Hne.
    destruct (trimEnd (String a t)); [congruence | reflexivity].
Qed.

Section AddMessageValidation.

Variable E : Env.

(** X13: for a request whose date field is absent or a JSON primitive (so
    that its conversion by [new Date] cannot throw) and whose text, when a
    string, is ASCII (where the white space [trim] removes is tab, line feed,
    vertical tab, form feed, carriage return and space), the add-message
    validator accepts the request exactly when the chat identifier passes
    the ObjectId test, the text is a string with at least one character that
    is not white space, the sender is a string (possibly empty), and the date
    is absent or converts to a valid date.  Such a request whose text is
    white space only is answered 400 "Invalid message request" with the
    whole state untouched. *)
Theorem isAddMessageRequestValid_iff :
  forall req : AddMessageRequestToChat,
    json_primitive (body_msgDateTime req) = true ->
    (forall s, body_msg req = JStr s -> ascii_text s = true) ->
    (isAddMessageRequestValid E req = true <->
     isValidObjectId E (am_chatId req) = true /\
     (exists s, body_msg req = JStr s /\ all_space s = false) /\
     (exists s, body_msgFrom req = JStr s) /\
     (body_msgDateTime req = JUndefined \/
      exists t, new_Date E (body_msgDateTime req) = Some t)) /\
    (forall s w, body_msg req = JStr s -> all_space s = true ->
                 addMessageToChatRoute E req w =
                   (Returned (mkHttp 400 (JsonError "Invalid message request")), w)).
Proof.
  intros req _ _. split.
  - unfold isAddMessageRequestValid. split.
    + intros H. apply andb_true_iff in H as [H Hdate].
      apply andb_true_iff in H as [H Hfrom].
      apply andb_true_iff in H as [Hid Hmsg].
      split; [exact Hid|]. split; [|split].
      * destruct (body_msg req) as [| | | |s| |]; try discriminate.
        exists s. split; [reflexivity|].
        rewrite trim_length in Hmsg. destruct (all_space s); [discriminate | reflexivity].
      * destruct (body_msgFrom req) as [| | | |s| |]; try discriminate. eauto.
      * destruct (body_msgDateTime req) eqn:Hd; try (left; reflexivity);
          right; destruct (new_Date E _) as [t|]; try discriminate; eauto.
    + intros (Hid & (s & Hs & Htext) & (s' & Hs') & Hdate).
      rewrite Hid, Hs, Hs', trim_length, Htext. simpl.
      destruct Hdate as [-> | (t & Ht)]; [reflexivity|].
      destruct (body_msgDateTime req); try reflexivity; rewrite Ht; reflexivity.
  - intros s w Hs Hblank. unfold addMessageToChatRoute, isAddMessageRequestValid.
    rewrite Hs, trim_length, Hblank. simpl. rewrite andb_false_r. reflexivity.
Qed.

End AddMessageValidation.

(** A message of blanks and a tab. *)
Lemma isAddMessageRequestValid_blank_witness :
  addMessageToChatRoute sample_env
    (mkAddMessageRequest (chat_id chat_ab) (JStr "  	 ") (JStr "alice") JUndefined)
    sample_world
  = (Returned (mkHttp 400 (JsonError "Invalid message request")), sample_world).
Proof.
  apply (proj2 (@isAddMessageRequestValid_iff sample_env
                  (mkAddMessageRequest (chat_id chat_ab) (JStr "  	 ") (JStr "alice")
                                       JUndefined)
                  eq_refl
                  (fun s H => match H in (_ = v) return (ascii_text (str v) = true) with
                              | eq_refl => eq_refl
                              end))
               "  	 " sample_world); reflexivity.
Defined.

(** ** What a successful add-message saved *)

Section AddMessageContent.

Variable E : Env.

(** X14: an add-message request answered 200 saved a message of type
    direct whose text and sender are the strings of the request and whose
    sender is the username of a stored user; its date is the converted
    request date when that field is truthy, and the server clock otherwise
    (absent, [null], empty or zero). *)
Theorem addMessage_saved_content :
  forall (req : AddMessageRequestToChat) (w w' : World) (r : HttpResponse),
    addMessageToChatRoute E req w = (Returned r, w') ->
    status r = 200 ->
    exists doc d1 u,
      db_messages d1 = db_messages (db w) ++ [doc] /\
      msg (message_data doc) = str (body_msg req) /\
      msgFrom (message_data doc) = str (body_msgFrom req) /\
      msgType (message_data doc) = Direct /\
      msgDateTime (message_data doc) =
        (if truthy (body_msgDateTime req)
         then new_Date E (body_msgDateTime req)
         else Some (clock w)) /\
      In u (db_users (db w)) /\ username u = str (body_msgFrom req) /\
      (exists o c0, populateDocument E (chat_id c0) d1 = (o, db w')).
Proof.
  intros req w w' r Hrun H200.
  destruct (isAddMessageRequestValid E req) eqn:Hvalid.
  2:{ unfold addMessageToChatRoute in Hrun. rewrite Hvalid in Hrun.
      inversion Hrun; subst. discriminate. }
  rewrite (addMessageToChatRoute_valid E req w Hvalid) in Hrun.
  revert Hrun. unfold try_catch. unfold bind at 1.
  destruct (on_db (createMessage _) w) as [o1 w1] eqn:H1.
  apply on_db_spec in H1 as (H1 & _ & _).
  apply createMessage_spec in H1
    as (_ & _ & [(e & -> & _) | (doc & u & -> & Hdata & Hm1 & Hfind)]).
  { unfold ret. intros H; inversion H; subst. discriminate. }
  unfold bind at 1.
  destruct (on_db (addMessageToChat _ _) w1) as [o2 w2] eqn:H2.
  apply on_db_spec in H2 as (H2 & _ & _).
  apply addMessageToChat_spec in H2
    as (_ & Hm2 & [(e & -> & _) | (c0 & -> & _ & _)]).
  { unfold ret. intros H; inversion H; subst. discriminate. }
  unfold bind at 1. simpl chat_id.
  destruct (on_db (populateDocument E (chat_id c0)) w2) as [o3 w3] eqn:H3.
  apply on_db_spec in H3 as (H3 & _ & _).
  destruct o3 as [populated|].
  2:{ unfold ret. intros H; inversion H; subst. discriminate. }
  unfold bind, socket_emit, ret. intros H; inversion H; subst; clear H. simpl.
  apply find_some in Hfind as (Hin & Hname). apply String.eqb_eq in Hname.
  exists doc, (db w2), u. rewrite Hdata. simpl.
  split; [congruence|]. repeat split; try assumption. eauto.
Qed.

End AddMessageContent.

(** Alice posts without a date: the message carries the server clock. *)
Lemma addMessage_saved_content_witness :
  let req := mkAddMessageRequest (chat_id chat_ab) (JStr "hi") (JStr "alice") JUndefined in
  let run := addMessageToChatRoute sample_env req sample_world in
  exists doc d1 u,
    db_messages d1 = db_messages (db sample_world) ++ [doc] /\
    msg (message_data doc) = "hi" /\
    msgFrom (message_data doc) = "alice" /\
    msgType (message_data doc) = Direct /\
    msgDateTime (message_data doc) = Some (clock sample_world) /\
    In u (db_users (db sample_world)) /\ username u = "alice" /\
    (exists o c0, populateDocument sample_env (chat_id c0) d1 = (o, db (snd run))).
Proof.
  intros req run.
  apply (@addMessage_saved_content sample_env req sample_world (snd run)
           (mkHttp 200 (Json (PopChat (hydrate (db (snd run))
                                         (push_message (oid 16) chat_ab))))));
    reflexivity.
Defined.

(** ** The add-participant handler *)

Section AddParticipant.

Variable E : Env.

(** X15: a valid add-participant request for a chat identifier that is not
    in the store is answered 500 with the service's "Chat not found" error
    when the store call succeeds; the update call is the only store call
    made and nothing is changed or emitted. *)
Theorem addParticipant_unknown_chat :
  forall (req : AddParticipantRequest) (w : World),
    isAddParticipantRequestValid E req = true ->
    calm 1 (db w) ->
    find (has_id (ap_chatId req)) (db_chats (db w)) = None ->
    addParticipantToChatRoute E req w =
      (Returned (mkHttp 500 (JsonError "Chat not found")),
       mkWorld (after_call (ChatFindByIdAndUpdate (ap_chatId req)) (db w))
               (socket w) (clock w)).
Proof.
  intros req w Hvalid Hcalm Hnone.
  unfold addParticipantToChatRoute. rewrite Hvalid. cbn [negb].
  unfold try_catch. unfold bind at 1.
  assert (Hrun : addParticipantToChat (ap_chatId req) (str (body_participant req)) (db w)
                 = (Returned (ErrorObj "Chat not found"),
                    after_call (ChatFindByIdAndUpdate (ap_chatId req)) (db w))).
  { unfold addParticipantToChat, try_catch, bind, ret, ChatModel_findByIdAndUpdate, bind,
      after_call.
    destruct (store_call_calm (ChatFindByIdAndUpdate (ap_chatId req)) Hcalm)
      as (d1 & Hc & (_ & _ & Hch & _) & _).
    rewrite Hc, Hch, Hnone. reflexivity. }
  rewrite (on_db_run _ w Hrun). reflexivity.
Qed.

(** X16: a valid add-participant request for a stored chat, when the store
    call succeeds, adds the identifier to the chat whether or not it is the
    identifier of a stored user, then hydrates the chat: the answer is 200
    with the hydration result, or 500 "Failed to add participant" when the
    hydration call rejects, in which case the participant stays added. *)
Theorem addParticipant_known_chat :
  forall (req : AddParticipantRequest) (w : World) (c0 : Chat),
    isAddParticipantRequestValid E req = true ->
    calm 1 (db w) ->
    find (has_id (ap_chatId req)) (db_chats (db w)) = Some c0 ->
    exists d1,
      addParticipantToChat (ap_chatId req) (str (body_participant req)) (db w)
        = (Returned (Doc (addToSet (str (body_participant req)) c0)), d1) /\
      find (has_id (ap_chatId req)) (db_chats d1)
        = Some (addToSet (str (body_participant req)) c0) /\
      In (str (body_participant req))
         (participants (addToSet (str (body_participant req)) c0)) /\
      addParticipantToChatRoute E req w =
        (Returned
           (match fst (populateDocument E (ap_chatId req) d1) with
            | Returned populated => mkHttp 200 (Json populated)
            | Thrown => mkHttp 500 (JsonError "Failed to add participant")
            end),
         mkWorld (snd (populateDocument E (ap_chatId req) d1)) (socket w) (clock w)).
Proof.
  intros req w c0 Hvalid Hcalm Hfind.
  destruct (@addParticipantToChat_run (ap_chatId req) (str (body_participant req))
              (db w) c0 0 Hcalm Hfind) as (d1 & Hrun & Hch & _).
  assert (Hid : chat_id c0 = ap_chatId req).
  { apply find_has_id in Hfind. apply String.eqb_eq. exact Hfind. }
  exists d1. split; [exact Hrun|].
  split.
  { rewrite Hch. apply find_update_first; [exact Hfind | exact (find_has_id _ _ Hfind)]. }
  split.
  { unfold addToSet; simpl.
    destruct (mem _ (participants c0)) eqn:Hm; [apply mem_In; exact Hm|].
    apply in_or_app; right; left; reflexivity. }
  unfold addParticipantToChatRoute. rewrite Hvalid. cbn [negb].
  unfold try_catch. unfold bind at 1. rewrite (on_db_run _ w Hrun).
  simpl chat_id. rewrite Hid. unfold bind, on_db, ret. simpl db.
  destruct (populateDocument E (ap_chatId req) d1) as [[populated|] d2]; reflexivity.
Qed.

End AddParticipant.

(** A participant for a chat that is not stored. *)
Lemma addParticipant_unknown_chat_witness :
  addParticipantToChatRoute sample_env
    (mkAddParticipantRequest "65f0000000000000000000c9" (JStr (user_id carol)))
    sample_world
  = (Returned (mkHttp 500 (JsonError "Chat not found")),
     mkWorld (after_call (ChatFindByIdAndUpdate "65f0000000000000000000c9")
                         (db sample_world))
             (socket sample_world) (clock sample_world)).
Proof.
  apply (@addParticipant_unknown_chat sample_env
           (mkAddParticipantRequest "65f0000000000000000000c9" (JStr (user_id carol)))
           sample_world); reflexivity.
Defined.

(** An identifier that belongs to no user joins the chat of alice and bob. *)
Lemma addParticipant_known_chat_witness :
  let stranger := "65f0000000000000000000ff" in
  let req := mkAddParticipantRequest (chat_id chat_ab) (JStr stranger) in
  is_user_id sample_db stranger = false /\
  exists d1,
    addParticipantToChat (chat_id chat_ab) stranger (db sample_world)
      = (Returned (Doc (addToSet stranger chat_ab)), d1) /\
    find (has_id (chat_id chat_ab)) (db_chats d1) = Some (addToSet stranger chat_ab) /\
    In stranger (participants (addToSet stranger chat_ab)) /\
    addParticipantToChatRoute sample_env req sample_world =
      (Returned
         (match fst (populateDocument sample_env (chat_id chat_ab) d1) with
          | Returned populated => mkHttp 200 (Json populated)
          | Thrown => mkHttp 500 (JsonError "Failed to add participant")
          end),
       mkWorld (snd (populateDocument sample_env (chat_id chat_ab) d1))
               (socket sample_world) (clock sample_world)).
Proof.
  intros stranger req. split; [reflexivity|].
  apply (@addParticipant_known_chat sample_env req sample_world chat_ab); reflexivity.
Defined.

(** ** A successful listing *)

Lemma collect_all_chats os :
  (forall o, In o os -> exists pc, o = Returned (PopChat pc)) ->
  exists ps, collect os = Returned ps /\ map (@Returned Populated) ps = os /\
             some has_error ps = Returned false.
Proof.
  induction os as [|o os IH]; intros Hall.
  - exists []. repeat split.
  - destruct (Hall o (or_introl eq_refl)) as (pc & ->).
    destruct IH as (ps & Hc & Hmap & Hsome).
    { intros o' Hin. apply Hall. right. exact Hin. }
    exists (PopChat pc :: ps). simpl. rewrite Hc, Hmap, Hsome. repeat split.
Qed.

Section ListingSuccess.

Variable E : Env.

(** X17: when every hydration call made for the chats of the listing
    resolves with a hydrated chat, the handler answers 200 with those
    hydrated chats, one per chat the service returned and in the same
    order. *)
Theorem getChatsByUserRoute_success :
  forall (req : GetChatByParticipantsRequest) (w : World)
         (chats : list Chat) (d1 d2 : Db) (os : list (Outcome Populated)),
    getChatsByParticipants [param_username req] (db w) = (Returned chats, d1) ->
    settle_all (map (fun c => populateDocument E (chat_id c)) chats) d1 = (os, d2) ->
    (forall o, In o os -> exists pc, o = Returned (PopChat pc)) ->
    exists ps,
      getChatsByUserRoute E req w =
        (Returned (mkHttp 200 (JsonList ps)), mkWorld d2 (socket w) (clock w)) /\
      map (@Returned Populated) ps = os /\
      List.length ps = List.length chats.
Proof.
  intros req w chats d1 d2 os Hchats Hsettle Hall.
  destruct (collect_all_chats os Hall) as (ps & Hcollect & Hmap & Hsome).
  exists ps. split; [|split; [exact Hmap|]].
  - unfold getChatsByUserRoute, try_catch, bind.
    rewrite (on_db_run _ w Hchats).
    unfold on_db at 1, promise_all; simpl db. rewrite Hsettle, Hcollect; simpl.
    unfold of_outcome. rewrite Hsome. reflexivity.
  - assert (Hlen : forall (ms : list (Async Db Populated)) s os' s',
               settle_all ms s = (os', s') -> List.length os' = List.length ms).
    { induction ms as [|m ms IH]; intros s os' s' H; simpl in H.
      - inversion H; reflexivity.
      - destruct (m s) as [o s1]. destruct (settle_all ms s1) as [os2 s2] eqn:H2.
        inversion H; subst. simpl. f_equal. eapply IH; eauto. }
    apply Hlen in Hsettle. rewrite length_map in Hsettle.
    rewrite <- Hsettle, <- Hmap, length_map. reflexivity.
Qed.

End ListingSuccess.

(** Bob is in both sample chats. *)
Lemma getChatsByUserRoute_success_witness :
  exists ps,
    getChatsByUserRoute sample_env (mkByUserRequest "bob") sample_world =
      (Returned (mkHttp 200 (JsonList ps)),
       mkWorld (mkDb (db_users sample_db) [] (db_chats sample_db) 16 []
                     [UserFind ["bob"]; ChatFind [user_id bob];
                      Populate (chat_id chat_ab); Populate (chat_id chat_bc)])
               (socket sample_world) (clock sample_world)) /\
    map (@Returned Populated) ps =
      [Returned (PopChat (hydrate sample_db chat_ab));
       Returned (PopChat (hydrate sample_db chat_bc))] /\
    List.length ps = 2.
Proof.
  apply (@getChatsByUserRoute_success sample_env (mkByUserRequest "bob") sample_world
           [chat_ab; chat_bc]
           (mkDb (db_users sample_db) [] (db_chats sample_db) 16 []
                 [UserFind ["bob"]; ChatFind [user_id bob]])
           (mkDb (db_users sample_db) [] (db_chats sample_db) 16 []
                 [UserFind ["bob"]; ChatFind [user_id bob];
                  Populate (chat_id chat_ab); Populate (chat_id chat_bc)])
           [Returned (PopChat (hydrate sample_db chat_ab));
            Returned (PopChat (hydrate sample_db chat_bc))]).
  - reflexivity.
  - reflexivity.
  - intros o [<- | [<- | []]]; eauto.
Defined.

(** ** Rooms and delivery *)




(** ** The client's handling of chat updates *)

Lemma existsb_same_chat_id chat cs :
  existsb (fun c => same_chat_id c chat) cs = true <-> In (pc_id chat) (map pc_id cs).
Proof.
  rewrite existsb_exists. split.
  - intros (c & Hin & Heq). apply String.eqb_eq in Heq. rewrite <- Heq.
    apply in_map. exact Hin.
  - intros Hin. apply in_map_iff in Hin as (c & Heq & Hin).
    exists c. split; [exact Hin | apply String.eqb_eq; exact Heq].
Qed.

(** X19: a "created" update adds the chat at the end of the client's chat
    list unless a chat with the same identifier is already listed: the list
    only ever grows by that one chat, a list without repeated identifiers
    stays so, the new chat's identifier is listed afterwards, the selected
    chat is untouched, and handling the same update again changes nothing. *)
Theorem handleChatUpdate_created :
  forall (chat : PopulatedChat) (st : DirectMessageState),
    let st' := handleChatUpdate (mkClientChatUpdate chat Created) st in
    dm_selectedChat st' = dm_selectedChat st /\
    (exists tail_, dm_chats st' = dm_chats st ++ tail_ /\ (tail_ = [] \/ tail_ = [chat])) /\
    In (pc_id chat) (chat_ids st') /\
    (NoDup (chat_ids st) -> NoDup (chat_ids st')) /\
    handleChatUpdate (mkClientChatUpdate chat Created) st' = st'.
Proof.
  intros chat st. unfold handleChatUpdate, chat_ids; simpl.
  destruct (existsb (fun c => same_chat_id c chat) (dm_chats st)) eqn:Hex; simpl.
  - split; [reflexivity|]. split; [exists []; rewrite app_nil_r; tauto|].
    split; [apply existsb_same_chat_id; exact Hex|]. split; [tauto|].
    rewrite Hex. reflexivity.
  - assert (Hnotin : ~ In (pc_id chat) (map pc_id (dm_chats st))).
    { intros Hin. apply existsb_same_chat_id in Hin. congruence. }
    assert (Hnow : existsb (fun c => same_chat_id c chat) (dm_chats st ++ [chat]) = true).
    { apply existsb_same_chat_id. rewrite map_app. apply in_or_app. right. left. reflexivity. }
    split; [reflexivity|]. split; [exists [chat]; tauto|].
    split; [apply existsb_same_chat_id; exact Hnow|].
    split.
    + intros Hnd. rewrite map_app. apply NoDup_app; [exact Hnd | repeat constructor; intros [] |].
      intros x Hx [<- | []]. exact (Hnotin Hx).
    + rewrite Hnow. reflexivity.
Qed.

(** X20: a "newMessage" update never touches the client's chat list; it
    replaces the selected chat by the update's chat when both have the same
    non-empty identifier and leaves the selection alone otherwise (another
    chat selected, or none), so updates for other chats, which the server
    sends to every client, do not disturb the chat on screen. *)
Theorem handleChatUpdate_newMessage :
  forall (chat : PopulatedChat) (st : DirectMessageState),
    let st' := handleChatUpdate (mkClientChatUpdate chat NewMessage) st in
    dm_chats st' = dm_chats st /\
    (dm_selectedChat st = None -> dm_selectedChat st' = None) /\
    (forall prev, dm_selectedChat st = Some prev -> pc_id prev <> pc_id chat ->
                  dm_selectedChat st' = Some prev) /\
    (forall prev, dm_selectedChat st = Some prev -> pc_id prev = pc_id chat ->
                  pc_id chat <> "" -> dm_selectedChat st' = Some chat).
Proof.
  intros chat st. unfold handleChatUpdate, same_chat_id; simpl.
  split; [reflexivity|]. split; [intros ->; reflexivity|]. split.
  - intros prev -> Hne. apply String.eqb_neq in Hne. rewrite Hne.
    rewrite andb_false_r. reflexivity.
  - intros prev -> Heq Hne. rewrite Heq, String.eqb_refl.
    apply String.eqb_neq in Hne. rewrite Hne. reflexivity.
Qed.

Lemma created_step chat st :
  selected_id (handleChatUpdate (mkClientChatUpdate chat Created) st) = selected_id st /\
  (exists tail_,
      dm_chats (handleChatUpdate (mkClientChatUpdate chat Created) st)
        = dm_chats st ++ tail_) /\
  (NoDup (chat_ids st) ->
   NoDup (chat_ids (handleChatUpdate (mkClientChatUpdate chat Created) st))).
Proof.
  unfold handleChatUpdate, selected_id, chat_ids; simpl.
  split; [reflexivity|].
  destruct (existsb (fun c => same_chat_id c chat) (dm_chats st)) eqn:Hex.
  - split; [exists []; rewrite app_nil_r; reflexivity | tauto].
  - split; [exists [chat]; reflexivity|].
    intros Hnd. rewrite map_app. apply NoDup_app; [exact Hnd | repeat constructor; intros [] |].
    intros x Hx [<- | []].
    apply existsb_same_chat_id in Hx. congruence.
Qed.

(** X21: over any sequence of chat updates the client keeps these
    invariants: the identifier of the selected chat never changes, the chat
    list only grows at its end, and a chat list without repeated identifiers
    never acquires one. *)
Theorem handleChatUpdate_invariants :
  forall (updates : list ClientChatUpdate) (st : DirectMessageState),
    let st' := fold_left (fun s u => handleChatUpdate u s) updates st in
    selected_id st' = selected_id st /\
    (exists tail_, dm_chats st' = dm_chats st ++ tail_) /\
    (NoDup (chat_ids st) -> NoDup (chat_ids st')).
Proof.
  intros updates. induction updates as [|u updates IH]; intros st; simpl.
  - split; [reflexivity|]. split; [exists []; rewrite app_nil_r; reflexivity | tauto].
  - destruct (IH (handleChatUpdate u st)) as (Hsel & (tail2 & Hchats) & Hnd).
    assert (Hstep : selected_id (handleChatUpdate u st) = selected_id st /\
                    (exists tail_, dm_chats (handleChatUpdate u st) = dm_chats st ++ tail_) /\
                    (NoDup (chat_ids st) -> NoDup (chat_ids (handleChatUpdate u st)))).
    { destruct u as [chat [|]].
      - apply created_step.
      - unfold handleChatUpdate, selected_id, chat_ids; simpl.
        split; [|split; [exists []; rewrite app_nil_r; reflexivity | tauto]].
        destruct (dm_selectedChat st) as [prev|]; [|reflexivity].
        destruct (negb (String.eqb (pc_id prev) "")); simpl; [|reflexivity].
        destruct (negb (String.eqb (pc_id chat) "")); simpl; [|reflexivity].
        unfold same_chat_id.
        destruct (String.eqb (pc_id prev) (pc_id chat)) eqn:Heq; simpl; [|reflexivity].
        apply String.eqb_eq in Heq. congruence. }
    destruct Hstep as (Hsel1 & (tail1 & Hchats1) & Hnd1).
    split; [congruence|]. split; [|tauto].
    exists (tail1 ++ tail2). rewrite Hchats, Hchats1, app_assoc. reflexivity.
Qed.

(** ** Listing by several names, and for an unknown name *)

(** X22: when the two store queries succeed, [getChatsByParticipants]
    returns, in store order, the stored chats that contain the identifier
    of every stored user whose username is among the given names, provided
    at least one name resolves; names that resolve to no user are dropped
    from the requirement rather than making the result empty, and when no
    name resolves the result is empty. *)
Theorem getChatsByParticipants_all_resolved :
  forall (names : list string) (d : Db),
    calm 2 d ->
    exists chats,
      fst (getChatsByParticipants names d) = Returned chats /\
      (forall c, In c chats <->
                 In c (db_chats d) /\ users_named names d <> [] /\
                 forall u, In u (users_named names d) -> In (user_id u) (participants c)) /\
      (users_named names d = [] -> chats = []).
Proof.
  intros names d Hcalm.
  destruct (getChatsByParticipants_calm names Hcalm) as (d' & Hrun & _).
  rewrite Hrun. simpl. eexists. split; [reflexivity|]. split.
  - intros c. rewrite filter_In. unfold all_of.
    destruct (users_named names d) as [|u0 us] eqn:Hus; simpl map.
    + split; [intros (_ & H); discriminate | intros (_ & H & _); congruence].
    + rewrite forallb_forall. split.
      * intros (Hin & Hall). split; [exact Hin|]. split; [discriminate|].
        intros u Hu. apply mem_In. apply Hall. apply in_map with (f := user_id) in Hu.
        exact Hu.
      * intros (Hin & _ & Hall). split; [exact Hin|].
        intros x Hx. change (In x (map user_id (u0 :: us))) in Hx.
        apply in_map_iff in Hx as (u & <- & Hu).
        apply mem_In. apply Hall. exact Hu.
  - intros Hnone. rewrite Hnone. simpl. clear.
    induction (db_chats d) as [|c cs IH]; [reflexivity | exact IH].
Qed.

(** Alice and bob share one chat; the unknown "zed" is ignored. *)
Lemma getChatsByParticipants_all_resolved_witness :
  exists chats,
    fst (getChatsByParticipants ["alice"; "zed"; "bob"] sample_db) = Returned chats /\
    (forall c, In c chats <->
               In c (db_chats sample_db) /\
               users_named ["alice"; "zed"; "bob"] sample_db <> [] /\
               forall u, In u (users_named ["alice"; "zed"; "bob"] sample_db) ->
                         In (user_id u) (participants c)) /\
    (users_named ["alice"; "zed"; "bob"] sample_db = [] -> chats = []).
Proof.
  apply (@getChatsByParticipants_all_resolved ["alice"; "zed"; "bob"] sample_db).
  reflexivity.
Defined.

Section ListingUnknown.

Variable E : Env.

(** X23: the listing for a username that no stored user has is answered
    200 with an empty list when the store queries succeed: an unknown user
    and a user without chats get the same answer, and no hydration call is
    made. *)
Theorem getChatsByUserRoute_unknown_user :
  forall (req : GetChatByParticipantsRequest) (w : World),
    calm 2 (db w) ->
    users_named [param_username req] (db w) = [] ->
    exists d',
      getChatsByUserRoute E req w =
        (Returned (mkHttp 200 (JsonList [])), mkWorld d' (socket w) (clock w)) /\
      same_data (db w) d' /\
      calls d' = calls (db w) ++ [UserFind [param_username req]; ChatFind []].
Proof.
  intros req w Hcalm Hnone.
  destruct (@UserModel_find_calm [param_username req] (db w) 1 Hcalm)
    as (d1 & H1 & Hd1 & Hl1 & _ & Hn1).
  destruct (store_call_calm (ChatFind []) Hn1) as (d2 & H2 & Hd2 & Hl2 & _).
  assert (Hrun : getChatsByParticipants [param_username req] (db w) = (Returned [], d2)).
  { unfold getChatsByParticipants, try_catch, bind, ret.
    rewrite H1, Hnone. simpl map. unfold ChatModel_find_all, bind. rewrite H2.
    f_equal. f_equal. clear.
    induction (db_chats d2) as [|c cs IH]; [reflexivity | exact IH]. }
  exists d2. split.
  - unfold getChatsByUserRoute, try_catch, bind.
    rewrite (on_db_run _ w Hrun). reflexivity.
  - split; [eapply same_data_trans; eauto|].
    rewrite Hl2, Hl1, <- app_assoc. reflexivity.
Qed.

(** X24: a valid create-chat request whose participants are not
    resolvable (an unknown or a repeated username), with unique usernames in
    the store and no failing store call, is answered 500 with "Some users
    not found"; no chat is stored and no event is emitted, but every seed
    message of the request has been saved. *)
Theorem createChat_unresolvable_participants :
  forall (req : CreateChatRequest) (w : World),
    isCreateChatRequestValid E req = Returned true ->
    NoDup (map username (db_users (db w))) ->
    calm (seed_count (payload_of E req) + 2) (db w) ->
    ~ resolvable (payload_participants (payload_of E req)) (db w) ->
    exists w',
      createChatRoute E req w =
        (Returned (mkHttp 500 (JsonError "Some users not found")), w') /\
      socket w' = socket w /\
      db_chats (db w') = db_chats (db w) /\
      List.length (db_messages (db w'))
        = List.length (db_messages (db w)) + seed_count (payload_of E req).
Proof.
  intros req w Hvalid Huniq Hcalm Hnot.
  destruct (saveChat_run (payload_of E req) Hcalm) as (Hbad & _).
  assert (Hne : List.length (users_named (payload_participants (payload_of E req)) (db w))
                <> List.length (payload_participants (payload_of E req))).
  { intros Hlen. apply Hnot.
    apply (users_named_length (payload_participants (payload_of E req)) (db w) Huniq).
    exact Hlen. }
  destruct (Hbad Hne) as (Hfst & Hch & Hmsgs).
  destruct (saveChat (payload_of E req) (db w)) as [o d1] eqn:Hsave.
  simpl in Hfst, Hch, Hmsgs. subst o.
  exists (mkWorld d1 (socket w) (clock w)).
  unfold createChatRoute, of_outcome. unfold bind at 1. rewrite Hvalid. cbn [negb].
  unfold try_catch. unfold bind at 1. rewrite (on_db_run _ w Hsave).
  simpl. repeat split; assumption.
Qed.

End ListingUnknown.

(** "zed" has no user record. *)
Lemma getChatsByUserRoute_unknown_user_witness :
  exists d',
    getChatsByUserRoute sample_env (mkByUserRequest "zed") sample_world =
      (Returned (mkHttp 200 (JsonList [])),
       mkWorld d' (socket sample_world) (clock sample_world)) /\
    same_data (db sample_world) d' /\
    calls d' = calls (db sample_world) ++ [UserFind ["zed"]; ChatFind []].
Proof.
  apply (@getChatsByUserRoute_unknown_user sample_env (mkByUserRequest "zed")
           sample_world); reflexivity.
Defined.

(** Alice and the unknown "zed", with one seed message. *)
Lemma createChat_unresolvable_participants_witness :
  let req := mkCreateChatRequest
               (JArr [JStr "alice"; JStr "zed"])
               (JArr [JObj [("msg", JStr "hi"); ("msgFrom", JStr "alice")]]) in
  exists w',
    createChatRoute sample_env req sample_world =
      (Returned (mkHttp 500 (JsonError "Some users not found")), w') /\
    socket w' = socket sample_world /\
    db_chats (db w') = db_chats (db sample_world) /\
    List.length (db_messages (db w')) = List.length (db_messages (db sample_world)) + 1.
Proof.
  intros req.
  apply (@createChat_unresolvable_participants sample_env req sample_world).
  - reflexivity.
  - simpl. repeat constructor; simpl; intuition discriminate.
  - reflexivity.
  - intros (_ & Hall). destruct (Hall "zed") as (u & Hu & Hname).
    + right; left; reflexivity.
    + simpl in Hu. destruct Hu as [<- | [<- | [<- | []]]]; discriminate Hname.
Defined.

(** Alice opens a chat with carol. *)
Lemma createChat_success_broadcast_witness :
  let req := mkCreateChatRequest (JArr [JStr "alice"; JStr "carol"]) JUndefined in
  let run := createChatRoute sample_env req sample_world in
  let r := mkHttp 201 (Json (PopChat (hydrate (db (snd run))
                                        (mkChat (oid 16) [user_id alice; user_id carol] [])))) in
  exists populated,
    body r = Json populated /\
    connections (socket (snd run)) = connections (socket sample_world) /\
    emitted (socket (snd run)) =
      emitted (socket sample_world)
      ++ [mkEmitted "chatUpdate" (mkUpdate populated Created)
                    (map conn_id (connections (socket sample_world)))].
Proof.
  intros req run r.
  apply (@createChat_success_broadcast sample_env req sample_world (snd run) r);
    reflexivity.
Defined.
